(** * The copilot sample: [src/run.py] and [src/copilot_langchain/chat.py]

    A shallow embedding of the two Python modules and the properties of
    their question-answering contract.

    - Python values are a small inductive type ([PyVal]); subscripting
      raises exactly the exceptions Python raises.
    - The process state the code touches ([os.environ] and the attributes
      of the [openai] module) is threaded explicitly; calls that leave the
      repository (the Azure and langchain clients, [json.loads], the file
      system) are fields of a [Services] record and every such call is
      written to an event trace. *)

From Stdlib Require Import ZArith Ascii String List PrimFloat.
From stdpp Require Import gmap strings list.

Set Warnings "-register-all,-inexact-float".
Open Scope string_scope.

(** ** Python values and exceptions *)

Module Py.

(** The values that flow through the two modules: JSON-like data. A dict
    keeps its insertion order and has string keys. *)
Inductive PyVal : Type :=
| PNone
| PBool (b : bool)
| PInt (z : Z)
| PFloat (f : float)
| PStr (s : string)
| PList (l : list PyVal)
| PDict (d : list (string * PyVal)).

Inductive PyErr : Type :=
| KeyError (key : PyVal)
| IndexError
| TypeError
| NameError (name : string)
| ImportError (module : string)
| FileNotFoundError (path : string)
| JSONDecodeError
| ServiceError (what : string)
| SystemExit (code : Z).

Inductive Res (A : Type) : Type :=
| Ok (a : A)
| Raise (e : PyErr).
Arguments Ok {A} a.
Arguments Raise {A} e.

Definition is_ok {A} (r : Res A) : bool :=
  match r with Ok _ => true | Raise _ => false end.

(** [d[k]] on the association list behind a dict. *)
Fixpoint dict_lookup (d : list (string * PyVal)) (k : string) : option PyVal :=
  match d with
  | [] => None
  | (k', v) :: d' => if String.eqb k' k then Some v else dict_lookup d' k
  end.

(** [d.get(k, default)]. *)
Definition dict_get (d : list (string * PyVal)) (k : string) (default : PyVal) : PyVal :=
  match dict_lookup d k with
  | Some v => v
  | None => default
  end.

(** [l[i]] on a list: a negative index counts from the end. *)
Definition list_index {A} (l : list A) (i : Z) : Res A :=
  let n := Z.of_nat (length l) in
  let j := if (i <? 0)%Z then (i + n)%Z else i in
  if ((j <? 0)%Z || (n <=? j)%Z)%bool then Raise IndexError
  else match nth_error l (Z.to_nat j) with
       | Some x => Ok x
       | None => Raise IndexError
       end.

(** [s[i]] on a string: the one-character string at that place (strings
    are sequences of 8-bit characters here). *)
Definition str_index (s : string) (i : Z) : Res PyVal :=
  match list_index (list_ascii_of_string s) i with
  | Ok c => Ok (PStr (String c EmptyString))
  | Raise e => Raise e
  end.

(** [v[k]] for arbitrary [v] and [k]. A [bool] is an [int] in Python, so it
    indexes sequences; lists and dicts are unhashable, so they are no dict
    keys; the dicts here have string keys only, so every other hashable key
    is missing. *)
Definition subscript (v k : PyVal) : Res PyVal :=
  match v, k with
  | PList l, PInt i => list_index l i
  | PList l, PBool b => list_index l (if b then 1%Z else 0%Z)
  | PStr s, PInt i => str_index s i
  | PStr s, PBool b => str_index s (if b then 1%Z else 0%Z)
  | PDict d, PStr key =>
      match dict_lookup d key with
      | Some x => Ok x
      | None => Raise (KeyError k)
      end
  | PDict _, (PList _ | PDict _) => Raise TypeError
  | PDict _, _ => Raise (KeyError k)
  | _, _ => Raise TypeError
  end.

(** Truthiness of a string, as in [if args.question:]. *)
Definition str_truthy (s : string) : bool :=
  match s with EmptyString => false | _ => true end.

End Py.
Export Py.

(** ** Process state, events and the execution monad *)

(** The attributes of the [openai] module that [setup_credentials] sets. *)
Record OpenAIModule : Type := {
  api_type : option string;
  api_key : option string;
  api_version : option string;
  api_base : option string
}.

Record State : Type := {
  environ : gmap string string;
  openai : OpenAIModule
}.

(** The arguments of [AzureChatOpenAI(...)]. *)
Record ChatModel : Type := {
  deployment_name : string;
  model_name : string;
  temperature : PyVal
}.

(** The arguments of [PromptTemplate(...)]. *)
Record PromptTemplate : Type := {
  template : string;
  input_variables : list string
}.

(** The arguments of [RetrievalQA.from_chain_type(...)], the retriever
    apart (it is a handle of the service). *)
Record ChainArgs : Type := {
  llm : ChatModel;
  chain_type : string;
  return_source_documents : bool;
  chain_prompt : PromptTemplate
}.

(** One entry per call that leaves the repository's code, and per call of
    a chat-completion function handed in by a caller. *)
Inductive Event : Type :=
| EvSetEventLoopPolicy
| EvAzureChatOpenAI (m : ChatModel)
| EvAIClientFromConfig
| EvMLIndex (folder : string)
| EvAsLangchainRetriever
| EvRetrievalQA (a : ChainArgs)
| EvQA (question : PyVal)
| EvChatCompletion (messages : list PyVal)
| EvBuildMLIndex (index_name embeddings_model data_source_url input_data : string)
| EvCreateOrUpdateIndex
| EvOpen (path : string)
| EvEvaluate (evaluation_name : string) (data : list PyVal)
| EvImport (module : string)
| EvPrint (text : PyVal).

Record Run (A : Type) : Type := {
  result : Res A;
  final : State;
  events : list Event
}.
Arguments result {A} r.
Arguments final {A} r.
Arguments events {A} r.

(** A computation reads and writes the state, may raise, and emits events;
    it cannot read or erase what was emitted before it. *)
Definition M (A : Type) : Type := State -> Run A.

Definition ret {A} (a : A) : M A :=
  fun s => {| result := Ok a; final := s; events := [] |}.

Definition bind {A B} (m : M A) (k : A -> M B) : M B :=
  fun s =>
    let r := m s in
    match result r with
    | Ok a =>
        let r' := k a (final r) in
        {| result := result r'; final := final r'; events := (events r ++ events r')%list |}
    | Raise e => {| result := Raise e; final := final r; events := events r |}
    end.

Definition raise {A} (e : PyErr) : M A :=
  fun s => {| result := Raise e; final := s; events := [] |}.

Definition lift {A} (r : Res A) : M A :=
  fun s => {| result := r; final := s; events := [] |}.

Definition emit (ev : Event) : M unit :=
  fun s => {| result := Ok tt; final := s; events := [ev] |}.

(** A call out of the repository: logged, answered by the service from the
    current state, the state itself left alone. *)
Definition extern {A} (ev : Event) (f : State -> Res A) : M A :=
  fun s => {| result := f s; final := s; events := [ev] |}.

(** The run [r] with [evs] emitted before it. *)
Definition prepend {A} (evs : list Event) (r : Run A) : Run A :=
  {| result := result r; final := final r; events := (evs ++ events r)%list |}.

Notation "x <- m ;; k" := (bind m (fun x => k))
  (at level 100, m at next level, right associativity).
Notation "m ;;; k" := (bind m (fun _ => k))
  (at level 100, right associativity).

(** [os.environ[k]]. *)
Definition getenv (k : string) : M string :=
  fun s =>
    match environ s !! k with
    | Some v => {| result := Ok v; final := s; events := [] |}
    | None => {| result := Raise (KeyError (PStr k)); final := s; events := [] |}
    end.

(** [os.getenv(k)]: [None] when unset. *)
Definition getenv_opt (k : string) : M PyVal :=
  fun s =>
    {| result := Ok (match environ s !! k with Some v => PStr v | None => PNone end);
       final := s; events := [] |}.

(** [os.environ[k] = v]. *)
Definition setenv (k v : string) : M unit :=
  fun s =>
    {| result := Ok tt;
       final := {| environ := <[k := v]> (environ s); openai := openai s |};
       events := [] |}.

Definition set_openai (f : OpenAIModule -> OpenAIModule) : M unit :=
  fun s =>
    {| result := Ok tt;
       final := {| environ := environ s; openai := f (openai s) |};
       events := [] |}.

(** A chat-completion function as [copilot_qna] and the command line call
    it: on the conversation alone, every other parameter at its default. *)
Definition ChatFn : Type := list PyVal -> M PyVal.

(** The keyword arguments of [evaluate(...)]. *)
Record EvaluateArgs : Type := {
  evaluation_name : string;
  asset : PyVal -> M PyVal;
  data : list PyVal;
  task_type : string;
  prediction_data : string;
  truth_data : string;
  metrics_config : PyVal;
  tracking_uri : PyVal
}.

(** What the modules call but do not define. Handles of the hosted objects
    are abstract; every service sees the process state it runs in. *)
Record Services : Type := {
  MLIndexT : Type;
  RetrieverT : Type;
  ChainT : Type;
  (** [consts.search_index_folder] *)
  search_index_folder : string;
  (** [platform.system()] *)
  platform_system : string;
  (** [pathlib.Path.cwd()] and [Path.__truediv__] on a string *)
  cwd : string;
  path_join : string -> string -> string;
  (** [open(path, "r")] followed by reading the whole text *)
  read_text : string -> option string;
  json_loads : string -> Res PyVal;
  AzureChatOpenAI : ChatModel -> State -> Res unit;
  (** [AIClient.from_config(DefaultAzureCredential())]: project name and
      tracking URI of the client *)
  AIClient_from_config : State -> Res (string * PyVal);
  MLIndex : string -> State -> Res MLIndexT;
  as_langchain_retriever : MLIndexT -> State -> Res RetrieverT;
  RetrievalQA_from_chain_type : ChainArgs -> RetrieverT -> State -> Res ChainT;
  chain_call : ChainT -> PyVal -> State -> Res PyVal;
  (** [build_mlindex(...)]: the local path of the index it builds *)
  build_mlindex : string -> string -> string -> string -> State -> Res string;
  (** [client.mlindexes.create_or_update(index)]: name and path of the
      registered index *)
  mlindexes_create_or_update : string -> State -> Res (string * string);
  (** [azure.ai.generative.evaluate.evaluate(...)]; it runs the asset on
      the rows as it sees fit *)
  sdk_evaluate : EvaluateArgs -> M PyVal;
  (** the [chat_completion] of a backend package that is not part of the
      sources at hand, by module name; importing it may fail *)
  import_backend : string -> State -> Res ChatFn
}.

(** ** [copilot_langchain/chat.py] *)

Module Chat.

Definition dquote : string := String (ascii_of_nat 34) EmptyString.

(** The prompt of [chat_completion], character for character. *)
Definition prompt_text : string :=
"
    System:
    You are an AI assistant helping users with queries related to outdoor outdooor/camping gear and clothing.
    Use the following pieces of context to answer the questions about outdoor/camping gear and clothing as completely, correctly, and concisely as possible.
    If the question is not related to outdoor/camping gear and clothing, just say Sorry, I only can answer question related to outdoor/camping gear and clothing. So how can I help? Don't try to make up an answer.
    If the question is related to outdoor/camping gear and clothing but vague ask for clarifying questions.
    Do not add documentation reference in the response.

    {context}

    ---

    Question: {question}

    Answer:" +:+ dquote +:+ "
    ".

Definition setup_credentials : M unit :=
  (* Azure OpenAI credentials *)
  t <- getenv "OPENAI_API_TYPE" ;;
  set_openai (fun o => {| api_type := Some t; api_key := api_key o;
                          api_version := api_version o; api_base := api_base o |}) ;;;
  k <- getenv "OPENAI_API_KEY" ;;
  set_openai (fun o => {| api_type := api_type o; api_key := Some k;
                          api_version := api_version o; api_base := api_base o |}) ;;;
  v <- getenv "OPENAI_API_VERSION" ;;
  set_openai (fun o => {| api_type := api_type o; api_key := api_key o;
                          api_version := Some v; api_base := api_base o |}) ;;;
  b <- getenv "OPENAI_API_BASE" ;;
  set_openai (fun o => {| api_type := api_type o; api_key := api_key o;
                          api_version := api_version o; api_base := Some b |}) ;;;
  (* Azure Cognitive Search credentials *)
  endpoint <- getenv "AZURE_AI_SEARCH_ENDPOINT" ;;
  setenv "AZURE_COGNITIVE_SEARCH_TARGET" endpoint ;;;
  key <- getenv "AZURE_AI_SEARCH_KEY" ;;
  setenv "AZURE_COGNITIVE_SEARCH_KEY" key.

Section WithServices.
Variable svc : Services.

Definition chat_completion (messages : list PyVal) (stream : bool)
    (session_state : PyVal) (context : list (string * PyVal)) : M PyVal :=
  last_message <- lift (list_index messages (-1)) ;;
  question <- lift (subscript last_message (PStr "content")) ;;
  dep <- getenv "AZURE_OPENAI_CHAT_DEPLOYMENT" ;;
  model <- getenv "AZURE_OPENAI_CHAT_MODEL" ;;
  let llm := {| deployment_name := dep;
                model_name := model;
                temperature := dict_get context "temperature" (PFloat 0.7) |} in
  extern (EvAzureChatOpenAI llm) (AzureChatOpenAI svc llm) ;;;
  let prompt_template := {| template := prompt_text;
                            input_variables := ["context"; "question"] |} in
  (* connects to project defined in the config.json file at the root of the repo *)
  client <- extern EvAIClientFromConfig (AIClient_from_config svc) ;;
  setup_credentials ;;;
  (* convert MLIndex to a langchain retriever *)
  mlindex <- extern (EvMLIndex (search_index_folder svc))
                    (MLIndex svc (search_index_folder svc)) ;;
  index_langchain_retriever <- extern EvAsLangchainRetriever
                                      (as_langchain_retriever svc mlindex) ;;
  let args := {| llm := llm;
                 chain_type := "stuff";
                 return_source_documents := true;
                 chain_prompt := prompt_template |} in
  qa <- extern (EvRetrievalQA args)
               (RetrievalQA_from_chain_type svc args index_langchain_retriever) ;;
  response <- extern (EvQA question) (chain_call svc qa question) ;;
  lift (subscript response (PStr "result")).

End WithServices.

End Chat.

(** ** [run.py] *)

Module Run.

Definition newline : ascii := ascii_of_nat 10.

(** [f.readlines()] on the text of a file: every line keeps its newline;
    a last line without one is a line too. *)
Fixpoint readlines (text : string) : list string :=
  match text with
  | EmptyString => []
  | String c rest =>
      if Ascii.eqb c newline then String c EmptyString :: readlines rest
      else match readlines rest with
           | [] => [String c EmptyString]
           | l :: ls => String c l :: ls
           end
  end.

(** A list comprehension over a function that may raise: left to right,
    the first exception ends it. *)
Fixpoint comprehension {A B} (f : A -> Res B) (l : list A) : Res (list B) :=
  match l with
  | [] => Ok []
  | x :: l' =>
      match f x with
      | Ok y =>
          match comprehension f l' with
          | Ok ys => Ok (y :: ys)
          | Raise e => Raise e
          end
      | Raise e => Raise e
      end
  end.

(** [pathlib.Path.cwd() / p]: defined for a string, a [TypeError] for the
    other values. *)
Definition path_div (join : string -> string -> string) (base : string)
    (p : PyVal) : Res string :=
  match p with
  | PStr s => Ok (join base s)
  | _ => Raise TypeError
  end.

Definition user_message (question : PyVal) : PyVal :=
  PDict [("role", PStr "user"); ("content", question)].

(** The command line as [argparse] leaves it in [args]. [dataset_path] is
    declared with [action='store_true'] and a string default, so it holds
    either a string or a bool. *)
Record Args : Type := {
  question : option string;
  implementation : string;
  deploy : bool;
  evaluate : bool;
  dataset_path : PyVal;
  deployment_name : option string;
  build_index : bool
}.

Definition default_args : Args :=
  {| question := None;
     implementation := "aisdk";
     deploy := false;
     evaluate := false;
     dataset_path := PStr "src/tests/evaluation_dataset.jsonl";
     deployment_name := None;
     build_index := false |}.

Inductive Action : Type :=
| Store
| StoreTrue
| Help.

(** The options the parser declares, with the help option [argparse] adds. *)
Definition parser : list (string * Action) :=
  [ ("-h", Help); ("--help", Help);
    ("--question", Store);
    ("--implementation", Store);
    ("--deploy", StoreTrue);
    ("--evaluate", StoreTrue);
    ("--dataset-path", StoreTrue);
    ("--deployment-name", Store);
    ("--build-index", StoreTrue) ].

Fixpoint find_option (table : list (string * Action)) (tok : string) : option Action :=
  match table with
  | [] => None
  | (name, act) :: table' => if String.eqb name tok then Some act else find_option table' tok
  end.

(** [action='store'] with [type=str]. *)
Definition store (opt value : string) (a : Args) : Args :=
  if String.eqb opt "--question" then
    {| question := Some value; implementation := implementation a; deploy := deploy a;
       evaluate := evaluate a; dataset_path := dataset_path a;
       deployment_name := deployment_name a; build_index := build_index a |}
  else if String.eqb opt "--implementation" then
    {| question := question a; implementation := value; deploy := deploy a;
       evaluate := evaluate a; dataset_path := dataset_path a;
       deployment_name := deployment_name a; build_index := build_index a |}
  else if String.eqb opt "--deployment-name" then
    {| question := question a; implementation := implementation a; deploy := deploy a;
       evaluate := evaluate a; dataset_path := dataset_path a;
       deployment_name := Some value; build_index := build_index a |}
  else a.

(** [action='store_true']: the constant [True] goes into the destination. *)
Definition store_true (opt : string) (a : Args) : Args :=
  if String.eqb opt "--deploy" then
    {| question := question a; implementation := implementation a; deploy := true;
       evaluate := evaluate a; dataset_path := dataset_path a;
       deployment_name := deployment_name a; build_index := build_index a |}
  else if String.eqb opt "--evaluate" then
    {| question := question a; implementation := implementation a; deploy := deploy a;
       evaluate := true; dataset_path := dataset_path a;
       deployment_name := deployment_name a; build_index := build_index a |}
  else if String.eqb opt "--dataset-path" then
    {| question := question a; implementation := implementation a; deploy := deploy a;
       evaluate := evaluate a; dataset_path := PBool true;
       deployment_name := deployment_name a; build_index := build_index a |}
  else if String.eqb opt "--build-index" then
    {| question := question a; implementation := implementation a; deploy := deploy a;
       evaluate := evaluate a; dataset_path := dataset_path a;
       deployment_name := deployment_name a; build_index := true |}
  else a.

Definition dashed (tok : string) : bool :=
  match tok with
  | String c _ => Ascii.eqb c (ascii_of_nat 45)
  | EmptyString => false
  end.

(** The command lines this model of [argparse] speaks about: every token is
    an option spelled in full or does not start with a dash. Abbreviated
    options, [--opt=value], [--] and values that start with a dash are
    left out. *)
Definition in_fragment (argv : list string) : bool :=
  forallb (fun tok => negb (dashed tok) || bool_decide (is_Some (find_option parser tok))) argv.

(** One pass over the tokens. [stray] records that a token was neither an
    option nor the value of one: [argparse] reports those when it reaches
    the end. *)
Fixpoint consume (argv : list string) (stray : bool) (a : Args) : Res Args :=
  match argv with
  | [] => if stray then Raise (SystemExit 2) else Ok a
  | tok :: rest =>
      match find_option parser tok with
      | Some Help => Raise (SystemExit 0)
      | Some StoreTrue => consume rest stray (store_true tok a)
      | Some Store =>
          match rest with
          | value :: rest' =>
              if dashed value then Raise (SystemExit 2)
              else consume rest' stray (store tok value a)
          | [] => Raise (SystemExit 2)
          end
      | None => consume rest true a
      end
  end.

Definition parse_args (argv : list string) : option (Res Args) :=
  if in_fragment argv then Some (consume argv false default_args) else None.

Section WithServices.
Variable svc : Services.

(** The workaround for the event loop on Windows. *)
Definition set_event_loop_policy : M unit :=
  if String.eqb (platform_system svc) "Windows" then emit EvSetEventLoopPolicy
  else ret tt.

(** build the index using the product catalog docs from data/3-product-info *)
Definition build_cogsearch_index (index_name path_to_data : string) : M unit :=
  (* Set up environment variables for cog search SDK *)
  endpoint <- getenv "AZURE_AI_SEARCH_ENDPOINT" ;;
  setenv "AZURE_COGNITIVE_SEARCH_TARGET" endpoint ;;;
  key <- getenv "AZURE_AI_SEARCH_KEY" ;;
  setenv "AZURE_COGNITIVE_SEARCH_KEY" key ;;;
  client <- extern EvAIClientFromConfig (AIClient_from_config svc) ;;
  dep <- getenv "AZURE_OPENAI_EMBEDDING_DEPLOYMENT" ;;
  model <- getenv "AZURE_OPENAI_EMBEDDING_MODEL" ;;
  let embeddings_model := "azure_open_ai://deployment/" +:+ dep +:+ "/model/" +:+ model in
  let url := "https://product_info.com" in
  index <- extern (EvBuildMLIndex index_name embeddings_model url path_to_data)
                  (build_mlindex svc index_name embeddings_model url path_to_data) ;;
  (* register the index so that it shows up in the project *)
  cloud_index <- extern EvCreateOrUpdateIndex (mlindexes_create_or_update svc index) ;;
  emit (EvPrint (PStr ("Created index '" +:+ fst cloud_index +:+ "'"))) ;;;
  emit (EvPrint (PStr ("Local Path: " +:+ index))) ;;;
  emit (EvPrint (PStr ("Cloud Path: " +:+ snd cloud_index))).

(** TEMP: wrapper around chat completion function until chat_completion
    protocol is supported. [asyncio.run] runs the coroutine to its end. *)
Definition copilot_qna (question : PyVal) (chat_completion_fn : ChatFn) : M PyVal :=
  set_event_loop_policy ;;;
  let messages := [user_message question] in
  emit (EvChatCompletion messages) ;;;
  result <- chat_completion_fn messages ;;
  choices <- lift (subscript result (PStr "choices")) ;;
  response <- lift (subscript choices (PInt 0)) ;;
  message <- lift (subscript response (PStr "message")) ;;
  answer <- lift (subscript message (PStr "content")) ;;
  context <- lift (subscript response (PStr "context")) ;;
  ret (PDict [("question", question); ("answer", answer); ("context", context)]).

Definition load_jsonl (path : string) : M (list PyVal) :=
  text <- extern (EvOpen path)
                 (fun _ => match read_text svc path with
                           | Some t => Ok t
                           | None => Raise (FileNotFoundError path)
                           end) ;;
  lift (comprehension (json_loads svc) (readlines text)).

Definition run_evaluation (chat_completion_fn : ChatFn) (name : string)
    (dataset_path : PyVal) : M PyVal :=
  path <- lift (path_div (path_join svc) (cwd svc) dataset_path) ;;
  dataset <- load_jsonl path ;;
  (* temp: generate a single-turn qna wrapper over the chat completion function *)
  let qna_fn := fun question => copilot_qna question chat_completion_fn in
  client <- extern EvAIClientFromConfig (AIClient_from_config svc) ;;
  api_base <- getenv_opt "OPENAI_API_BASE" ;;
  api_key <- getenv_opt "OPENAI_API_KEY" ;;
  deployment_id <- getenv_opt "AZURE_OPENAI_EVALUATION_DEPLOYMENT" ;;
  emit (EvEvaluate name dataset) ;;;
  sdk_evaluate svc
    {| evaluation_name := name;
       asset := qna_fn;
       data := dataset;
       task_type := "qa";
       prediction_data := "answer";
       truth_data := "truth";
       metrics_config :=
         PDict [("openai_params",
                 PDict [("api_version", PStr "2023-05-15");
                        ("api_base", api_base);
                        ("api_type", PStr "azure");
                        ("api_key", api_key);
                        ("deployment_id", deployment_id)]);
                ("questions", PStr "question");
                ("contexts", PStr "context")];
       tracking_uri := snd client |}.

(** [Deployment] and [LocalModel] are names the module never binds. *)
Definition deploy_flow (deployment_name : string) : M unit :=
  client <- extern EvAIClientFromConfig (AIClient_from_config svc) ;;
  raise (NameError "Deployment").

(** The chain of imports: the name [chat_completion] is bound by the
    branch that matches and stays unbound when none does. The langchain
    backend is the module above (its own imports are taken to succeed);
    called from here it runs with its defaults, [stream=False],
    [session_state=None] and [context={}]. *)
Definition import_implementation (name : string) : M (option ChatFn) :=
  if str_truthy name then
    if String.eqb name "promptflow" then
      fn <- extern (EvImport "copilot_promptflow.chat")
                   (import_backend svc "copilot_promptflow.chat") ;;
      ret (Some fn)
    else if String.eqb name "semantickernel" then
      fn <- extern (EvImport "copilot_semantickernel.chat")
                   (import_backend svc "copilot_semantickernel.chat") ;;
      ret (Some fn)
    else if String.eqb name "langchain" then
      emit (EvImport "copilot_langchain.chat") ;;;
      ret (Some (fun messages => Chat.chat_completion svc messages false PNone []))
    else if String.eqb name "aisdk" then
      fn <- extern (EvImport "copilot_aisdk.chat")
                   (import_backend svc "copilot_aisdk.chat") ;;
      ret (Some fn)
    else ret None
  else ret None.

(** Reading the name [chat_completion]. *)
Definition lookup_chat_completion (binding : option ChatFn) : M ChatFn :=
  match binding with
  | Some fn => ret fn
  | None => raise (NameError "chat_completion")
  end.

(** The body of the script once the arguments are parsed. *)
Definition dispatch (args : Args) : M unit :=
  chat_completion <- import_implementation (implementation args) ;;
  if build_index args then
    build_cogsearch_index "contoso_product_index" "data/3-product_info"
  else if evaluate args then
    fn <- lookup_chat_completion chat_completion ;;
    results <- run_evaluation fn ("test-" +:+ implementation args +:+ "-copilot")
                              (dataset_path args) ;;
    emit (EvPrint results)
  else if deploy args then
    (* TODO - how to handle changing the implementation? *)
    client <- extern EvAIClientFromConfig (AIClient_from_config svc) ;;
    let name := match deployment_name args with
                | Some n => if str_truthy n then n else fst client +:+ "-copilot"
                | None => fst client +:+ "-copilot"
                end in
    deploy_flow name
  else
    let q := match question args with
             | Some q' => if str_truthy q' then q' else "which tent is the most waterproof?"
             | None => "which tent is the most waterproof?"
             end in
    (* Call the async chat function with a single question and print the response *)
    fn <- lookup_chat_completion chat_completion ;;
    let messages := [user_message (PStr q)] in
    emit (EvChatCompletion messages) ;;;
    result <- fn messages ;;
    emit (EvPrint result).

(** The script run on a command line of the modelled fragment, from the
    environment as [load_dotenv()] leaves it. *)
Definition main (argv : list string) : option (M unit) :=
  match parse_args argv with
  | Some parsed =>
      Some (set_event_loop_policy ;;; args <- lift parsed ;; dispatch args)
  | None => None
  end.

End WithServices.

End Run.

(** ** Concrete services, to run the definitions on *)

Module Demo.

Definition env : gmap string string :=
  list_to_map
    [ ("OPENAI_API_TYPE", "azure");
      ("OPENAI_API_KEY", "k-openai");
      ("OPENAI_API_VERSION", "2023-05-15");
      ("OPENAI_API_BASE", "https://contoso.openai.azure.com");
      ("AZURE_AI_SEARCH_ENDPOINT", "https://contoso.search.windows.net");
      ("AZURE_AI_SEARCH_KEY", "k-search");
      ("AZURE_OPENAI_CHAT_DEPLOYMENT", "gpt-35-turbo-16k-0613");
      ("AZURE_OPENAI_CHAT_MODEL", "gpt-35-turbo-16k");
      ("AZURE_OPENAI_EMBEDDING_DEPLOYMENT", "text-ada-embedding-002-2");
      ("AZURE_OPENAI_EMBEDDING_MODEL", "text-embedding-ada-002") ].

Definition state : State :=
  {| environ := env;
     openai := {| api_type := None; api_key := None;
                  api_version := None; api_base := None |} |}.

(** What the retrieval chain answers: the text and the documents it used. *)
Definition chain_response : PyVal :=
  PDict [("result", PStr "The Alpine Explorer Tent has a rainfly rated at 3000 mm.");
         ("source_documents", PList [])].

(** A response in the shape of the OpenAI chat protocol. *)
Definition protocol_response (content : string) : PyVal :=
  PDict [("choices",
          PList [PDict [("message", PDict [("role", PStr "assistant");
                                           ("content", PStr content)]);
                        ("context", PDict [("documents", PStr "tent catalog")])]])].

Definition protocol_backend (content : string) : ChatFn :=
  fun _ => ret (protocol_response content).

(** Two lines of a dataset as they stand in the file, and what
    [json.loads] makes of each. *)
Definition json_pair (k v : string) : string :=
  Chat.dquote +:+ k +:+ Chat.dquote +:+ ": " +:+ Chat.dquote +:+ v +:+ Chat.dquote.

Definition json_row (q t : string) : string :=
  "{" +:+ json_pair "question" q +:+ ", " +:+ json_pair "truth" t +:+ "}"
  +:+ String Run.newline EmptyString.

Definition row (q t : string) : PyVal :=
  PDict [("question", PStr q); ("truth", PStr t)].

Definition line1 : string := json_row "which tent is the most waterproof?" "the Alpine Explorer Tent".
Definition line2 : string := json_row "what is the warranty of the TrailMaster tent?" "2 years".

Definition dataset_file : string := "/repo/src/tests/evaluation_dataset.jsonl".

Definition services : Services :=
  {| MLIndexT := unit;
     RetrieverT := unit;
     ChainT := unit;
     search_index_folder := "./mlindex";
     platform_system := "Linux";
     cwd := "/repo";
     path_join := fun base p => base +:+ "/" +:+ p;
     read_text := fun p => if String.eqb p dataset_file then Some (line1 +:+ line2) else None;
     json_loads := fun line =>
       if String.eqb line line1
       then Ok (row "which tent is the most waterproof?" "the Alpine Explorer Tent")
       else if String.eqb line line2
       then Ok (row "what is the warranty of the TrailMaster tent?" "2 years")
       else Raise JSONDecodeError;
     AzureChatOpenAI := fun _ _ => Ok tt;
     AIClient_from_config := fun _ => Ok ("contoso-project", PStr "azureml://contoso");
     MLIndex := fun _ _ => Ok tt;
     as_langchain_retriever := fun _ _ => Ok tt;
     RetrievalQA_from_chain_type := fun _ _ _ => Ok tt;
     chain_call := fun _ _ _ => Ok chain_response;
     build_mlindex := fun name _ _ _ _ => Ok ("./" +:+ name +:+ "-mlindex");
     mlindexes_create_or_update := fun path _ => Ok ("contoso_product_index", "azureml://indexes/contoso");
     sdk_evaluate := fun _ => ret (PDict [("gpt_groundedness", PInt 5)]);
     import_backend := fun _ _ => Ok (protocol_backend "The Alpine Explorer Tent.") |}.

Definition user (content : string) : PyVal :=
  PDict [("role", PStr "user"); ("content", PStr content)].

Definition assistant (content : string) : PyVal :=
  PDict [("role", PStr "assistant"); ("content", PStr content)].

End Demo.

(** ** Vocabulary of the properties *)

Definition TARGET : string := "AZURE_COGNITIVE_SEARCH_TARGET".
Definition KEY : string := "AZURE_COGNITIVE_SEARCH_KEY".

(** The closed set of backend names of the command line. *)
Definition known_implementation (name : string) : bool :=
  String.eqb name "promptflow" || String.eqb name "semantickernel"
  || String.eqb name "langchain" || String.eqb name "aisdk".

(** What [set_event_loop_policy] leaves in the trace. *)
Definition policy_events (svc : Services) : list Event :=
  if String.eqb (platform_system svc) "Windows" then [EvSetEventLoopPolicy] else [].

(** A line of a text file that ends in its newline, and has no other. *)
Fixpoint terminated (l : string) : bool :=
  match l with
  | EmptyString => false
  | String c rest =>
      if Ascii.eqb c Run.newline
      then match rest with EmptyString => true | _ => false end
      else terminated rest
  end.

(** A last line that the file does not close: not empty, no newline. *)
Fixpoint unterminated (l : string) : bool :=
  match l with
  | EmptyString => false
  | String c rest =>
      negb (Ascii.eqb c Run.newline)
      && match rest with EmptyString => true | _ => unterminated rest end
  end.

(** The lines of a file: all terminated, the last one perhaps not. *)
Fixpoint file_lines (ls : list string) : bool :=
  match ls with
  | [] => true
  | [l] => terminated l || unterminated l
  | l :: rest => terminated l && file_lines rest
  end.

(** The text of the file that has these lines. *)
Definition file_text (ls : list string) : string :=
  fold_right String.append EmptyString ls.

(** A row of an evaluation dataset: the two fields the evaluator is
    pointed at. *)
Definition evaluation_row (v : PyVal) : bool :=
  is_ok (subscript v (PStr "question")) && is_ok (subscript v (PStr "truth")).

(** The script run on a command line from a given state. *)
Definition run_script (svc : Services) (argv : list string) (s : State)
    : option (Run unit) :=
  match Run.main svc argv with
  | Some m => Some (m s)
  | None => None
  end.

(** ** The execution monad: one rewriting rule per primitive *)

Lemma run_eta {T} (r : Run T) :
  {| result := result r; final := final r; events := events r |} = r.
Proof. now destruct r. Qed.

Lemma prepend_nil {T} (r : Run T) : prepend [] r = r.
Proof. now destruct r. Qed.

Section MonadFacts.
Context {A B : Type}.

Lemma bind_ret (a : A) (k : A -> M B) s : bind (ret a) k s = k a s.
Proof. unfold bind, ret. cbn. apply run_eta. Qed.

Lemma bind_raise (e : PyErr) (k : A -> M B) s :
  bind (raise e) k s = {| result := Raise e; final := s; events := [] |}.
Proof. reflexivity. Qed.

Lemma bind_lift_ok (r : Res A) (k : A -> M B) s a :
  r = Ok a -> bind (lift r) k s = k a s.
Proof. intros ->. unfold bind, lift. cbn. apply run_eta. Qed.

Lemma bind_lift_raise (r : Res A) (k : A -> M B) s e :
  r = Raise e -> bind (lift r) k s = {| result := Raise e; final := s; events := [] |}.
Proof. now intros ->. Qed.

Lemma bind_extern_ok ev (g : State -> Res A) (k : A -> M B) s a :
  g s = Ok a -> bind (extern ev g) k s = prepend [ev] (k a s).
Proof. intros H. unfold bind, extern. cbn. now rewrite H. Qed.

Lemma bind_extern_raise ev (g : State -> Res A) (k : A -> M B) s e :
  g s = Raise e ->
  bind (extern ev g) k s = {| result := Raise e; final := s; events := [ev] |}.
Proof. intros H. unfold bind, extern. cbn. now rewrite H. Qed.

End MonadFacts.

Section EnvironmentFacts.
Context {B : Type}.

Lemma bind_getenv_some key (k : string -> M B) s v :
  environ s !! key = Some v -> bind (getenv key) k s = k v s.
Proof. intros H. unfold bind, getenv. rewrite H. cbn [result final events app]. apply run_eta. Qed.

Lemma bind_getenv_none key (k : string -> M B) s :
  environ s !! key = None ->
  bind (getenv key) k s =
  {| result := Raise (KeyError (PStr key)); final := s; events := [] |}.
Proof. intros H. unfold bind, getenv. now rewrite H. Qed.

Lemma bind_getenv_opt key (k : PyVal -> M B) s :
  bind (getenv_opt key) k s =
  k (match environ s !! key with Some v => PStr v | None => PNone end) s.
Proof. unfold bind, getenv_opt. cbn [result final events app]. apply run_eta. Qed.

Lemma bind_setenv key v (k : unit -> M B) s :
  bind (setenv key v) k s =
  k tt {| environ := <[key := v]> (environ s); openai := openai s |}.
Proof. unfold bind, setenv. cbn [result final events app]. apply run_eta. Qed.

Lemma bind_set_openai f (k : unit -> M B) s :
  bind (set_openai f) k s =
  k tt {| environ := environ s; openai := f (openai s) |}.
Proof. unfold bind, set_openai. cbn [result final events app]. apply run_eta. Qed.

Lemma bind_emit ev (k : unit -> M B) s :
  bind (emit ev) k s = prepend [ev] (k tt s).
Proof. reflexivity. Qed.

End EnvironmentFacts.

Lemma bind_run_ok {A B} (m : M A) (k : A -> M B) s a :
  result (m s) = Ok a ->
  bind m k s = prepend (events (m s)) (k a (final (m s))).
Proof. intros H. unfold bind. now rewrite H. Qed.

Lemma bind_run_raise {A B} (m : M A) (k : A -> M B) s e :
  result (m s) = Raise e ->
  bind m k s = {| result := Raise e; final := final (m s); events := events (m s) |}.
Proof. intros H. unfold bind. now rewrite H. Qed.

Lemma bind_assoc {A B C} (m : M A) (f : A -> M B) (g : B -> M C) s :
  bind (bind m f) g s = bind m (fun a => bind (f a) g) s.
Proof.
  unfold bind. destruct (m s) as [[a | e] s1 ev1]; cbn [result final events]; [| reflexivity].
  destruct (f a s1) as [[b | e] s2 ev2]; cbn [result final events]; [| reflexivity].
  destruct (g b s2) as [r3 s3 ev3]; cbn [result final events].
  now rewrite app_assoc.
Qed.

(** ** Indexing *)

Lemma list_index_last {A} (earlier : list A) (x : A) :
  list_index (earlier ++ [x])%list (-1) = Ok x.
Proof.
  unfold list_index. rewrite length_app. cbn [length].
  replace (-1 <? 0)%Z with true by reflexivity.
  replace (-1 + Z.of_nat (length earlier + 1))%Z with (Z.of_nat (length earlier)) by lia.
  destruct (Z.ltb_spec (Z.of_nat (length earlier)) 0); [lia |].
  destruct (Z.leb_spec (Z.of_nat (length earlier + 1)) (Z.of_nat (length earlier))); [lia |].
  cbn [orb]. rewrite Nat2Z.id.
  rewrite nth_error_app2 by lia. now rewrite Nat.sub_diag.
Qed.

Lemma list_index_empty {A} (i : Z) : list_index (@nil A) i = Raise IndexError.
Proof.
  unfold list_index. cbn [length].
  destruct (i <? 0)%Z eqn:Hi.
  - rewrite Z.add_0_r, Hi. reflexivity.
  - destruct (Z.leb_spec (Z.of_nat 0) i) as [_ | Hlt].
    + now rewrite orb_true_r.
    + apply Z.ltb_ge in Hi. cbn in Hlt. lia.
Qed.

Lemma nonempty_snoc {A} (l : list A) :
  l <> [] -> exists earlier x, l = (earlier ++ [x])%list.
Proof.
  intros H. destruct (exists_last H) as (earlier & x & ->). eauto.
Qed.

(** A subscript by a string never raises [IndexError]. *)
Lemma subscript_str_not_index v k e :
  subscript v (PStr k) = Raise e -> e <> IndexError.
Proof.
  destruct v; cbn [subscript]; try (intros [= <-]; discriminate).
  destruct (dict_lookup d k); [discriminate | intros [= <-]; discriminate].
Qed.

(** Symbolic execution of a chain of binds, one primitive at a time. The
    environment lookups are never unfolded. *)
Ltac exec_env :=
  match goal with
  | |- context [bind (getenv ?key) ?k ?s] =>
      let E := fresh "Henv" in
      let v := fresh "v" in
      let env := eval cbn [environ openai api_type api_key api_version api_base]
                 in (environ s) in
      destruct (env !! key) as [v |] eqn:E;
      [ rewrite (bind_getenv_some key k s v E)
      | rewrite (bind_getenv_none key k s E) ];
      rewrite ?lookup_insert_ne in E by discriminate
  end.

Ltac exec_extern :=
  match goal with
  | |- context [bind (extern ?ev ?g) ?k ?s] =>
      let E := fresh "Hcall" in
      let a := fresh "a" in
      let e := fresh "e" in
      destruct (g s) as [a | e] eqn:E;
      [ rewrite (bind_extern_ok ev g k s a E)
      | rewrite (bind_extern_raise ev g k s e E) ]
  end.

Ltac exec_lift :=
  match goal with
  | |- context [bind (lift ?r) ?k ?s] =>
      let E := fresh "Hval" in
      let a := fresh "a" in
      let e := fresh "e" in
      destruct r as [a | e] eqn:E;
      [ rewrite (bind_lift_ok _ k s a eq_refl)
      | rewrite (bind_lift_raise _ k s e eq_refl) ]
  end.

Ltac exec_step :=
  first
    [ rewrite bind_assoc
    | rewrite bind_ret
    | rewrite bind_raise
    | rewrite bind_set_openai
    | rewrite bind_setenv
    | rewrite bind_emit
    | rewrite bind_getenv_opt
    | exec_env
    | exec_extern
    | exec_lift ];
  cbv beta; cbn [environ openai api_type api_key api_version api_base].

Ltac exec := cbv beta; repeat exec_step.

Ltac in_events :=
  repeat match goal with
         | H : In _ (_ :: _) |- _ => destruct H as [H | H]
         | H : In _ [] |- _ => destruct H
         | H : @eq Event _ _ |- _ => first [discriminate H | injection H as H]
         end.

Ltac finish_run :=
  unfold setenv, set_openai, emit, ret, raise, lift, prepend;
  cbn [result final events environ openai app].

(** ** Properties of [chat_completion] *)

Module ChatProps.
Import Chat.

(** [setup_credentials] on its own: it returns exactly when the six
    variables it reads are set, and then the two search variables hold the
    endpoint and the key, and the [openai] module its four attributes. *)
Lemma setup_credentials_ok s :
  result (setup_credentials s) = Ok tt ->
  exists t k v b endpoint key,
    environ s !! "OPENAI_API_TYPE" = Some t /\
    environ s !! "OPENAI_API_KEY" = Some k /\
    environ s !! "OPENAI_API_VERSION" = Some v /\
    environ s !! "OPENAI_API_BASE" = Some b /\
    environ s !! "AZURE_AI_SEARCH_ENDPOINT" = Some endpoint /\
    environ s !! "AZURE_AI_SEARCH_KEY" = Some key /\
    setup_credentials s =
      {| result := Ok tt;
         final := {| environ := <[KEY := key]> (<[TARGET := endpoint]> (environ s));
                     openai := {| api_type := Some t; api_key := Some k;
                                  api_version := Some v; api_base := Some b |} |};
         events := [] |}.
Proof.
  unfold setup_credentials. exec; finish_run; try discriminate.
  intros _. repeat eexists; eauto.
Qed.

(** Returning or not, it writes no other variable. *)
Lemma setup_credentials_frame s k :
  k <> TARGET -> k <> KEY ->
  environ (final (setup_credentials s)) !! k = environ s !! k.
Proof.
  unfold TARGET, KEY. intros Ht Hk. unfold setup_credentials. exec; finish_run; try reflexivity.
  - rewrite !lookup_insert_ne by congruence. reflexivity.
  - rewrite lookup_insert_ne by congruence. reflexivity.
Qed.

Lemma setup_credentials_events s : events (setup_credentials s) = [].
Proof. unfold setup_credentials. exec; finish_run; reflexivity. Qed.

Section WithServices.
Variable svc : Services.

(** Only the last message counts. *)
Lemma chat_completion_snoc earlier last stream session_state context :
  chat_completion svc (earlier ++ [last])%list stream session_state context =
  chat_completion svc [last] stream session_state context.
Proof.
  unfold chat_completion.
  rewrite list_index_last.
  change [last] with ([] ++ [last])%list at 1.
  now rewrite list_index_last.
Qed.

Ltac chat_exec last :=
  unfold chat_completion, setup_credentials;
  change [last] with ([] ++ [last])%list;
  rewrite (bind_lift_ok _ _ _ _ (list_index_last [] last));
  exec; finish_run.



Lemma chat_completion_empty stream session_state context s :
  chat_completion svc [] stream session_state context s =
  {| result := Raise IndexError; final := s; events := [] |}.
Proof.
  unfold chat_completion.
  now rewrite (bind_lift_raise _ _ _ _ (list_index_empty (-1))).
Qed.

(** What the statements after the read do with the last message. *)
Lemma chat_completion_content_error last stream session_state context s e :
  subscript last (PStr "content") = Raise e ->
  chat_completion svc [last] stream session_state context s =
  {| result := Raise e; final := s; events := [] |}.
Proof.
  intros H. unfold chat_completion.
  change [last] with ([] ++ [last])%list.
  rewrite (bind_lift_ok _ _ _ _ (list_index_last [] last)).
  now apply bind_lift_raise.
Qed.

Lemma chat_completion_deployment_error last stream session_state context s q :
  subscript last (PStr "content") = Ok q ->
  environ s !! "AZURE_OPENAI_CHAT_DEPLOYMENT" = None ->
  chat_completion svc [last] stream session_state context s =
  {| result := Raise (KeyError (PStr "AZURE_OPENAI_CHAT_DEPLOYMENT"));
     final := s; events := [] |}.
Proof.
  intros Hq Henv. unfold chat_completion.
  change [last] with ([] ++ [last])%list.
  rewrite (bind_lift_ok _ _ _ _ (list_index_last [] last)).
  rewrite (bind_lift_ok _ _ _ _ Hq).
  now apply bind_getenv_none.
Qed.

(** The outcome of an out-of-range read is not an outcome of a call on a
    conversation that has a last message. *)
Lemma chat_completion_read_in_bounds last stream session_state context s :
  chat_completion svc [last] stream session_state context s <>
  {| result := Raise IndexError; final := s; events := [] |}.
Proof.
  chat_exec last; intros H;
    pose proof (f_equal events H) as He; pose proof (f_equal result H) as Hr;
    cbn [events result] in He, Hr;
    first [ discriminate He
          | discriminate Hr
          | injection Hr as ->;
            match goal with
            | Hs : subscript _ (PStr _) = Raise IndexError |- _ =>
                exact (subscript_str_not_index _ _ _ Hs eq_refl)
            end ].
Qed.

(** With the input of the call in order and the model and the client
    configured, [setup_credentials] runs to its end. *)
Lemma chat_completion_writes last stream session_state context s
    q dep model t k v b endpoint key client :
  subscript last (PStr "content") = Ok q ->
  environ s !! "AZURE_OPENAI_CHAT_DEPLOYMENT" = Some dep ->
  environ s !! "AZURE_OPENAI_CHAT_MODEL" = Some model ->
  environ s !! "OPENAI_API_TYPE" = Some t ->
  environ s !! "OPENAI_API_KEY" = Some k ->
  environ s !! "OPENAI_API_VERSION" = Some v ->
  environ s !! "OPENAI_API_BASE" = Some b ->
  environ s !! "AZURE_AI_SEARCH_ENDPOINT" = Some endpoint ->
  environ s !! "AZURE_AI_SEARCH_KEY" = Some key ->
  AzureChatOpenAI svc {| deployment_name := dep; model_name := model;
                         temperature := dict_get context "temperature" (PFloat 0.7) |} s
    = Ok tt ->
  AIClient_from_config svc s = Ok client ->
  environ (final (chat_completion svc [last] stream session_state context s)) =
    <[KEY := key]> (<[TARGET := endpoint]> (environ s)) /\
  In (EvMLIndex (search_index_folder svc))
     (events (chat_completion svc [last] stream session_state context s)).
Proof.
  intros Hq Hdep Hmodel Ht Hk Hv Hb He Hkey Hllm Hclient.
  unfold chat_completion, setup_credentials.
  change [last] with ([] ++ [last])%list.
  rewrite (bind_lift_ok _ _ _ _ (list_index_last [] last)).
  rewrite (bind_lift_ok _ _ _ _ Hq).
  rewrite (bind_getenv_some _ _ _ _ Hdep). cbv beta.
  rewrite (bind_getenv_some _ _ _ _ Hmodel). cbv beta.
  rewrite (bind_extern_ok _ _ _ _ tt Hllm). cbv beta.
  rewrite (bind_extern_ok _ _ _ _ client Hclient). cbv beta.
  unfold TARGET, KEY.
  exec; finish_run; try congruence.
  all: split; [| cbn; tauto].
  all: congruence.
Qed.

(** C7. On every non-empty conversation the read [messages[-1]] inside
    [chat_completion] is in bounds: it yields the last message, the call
    does not end the way an out-of-range read ends ([IndexError] with
    nothing done), and it goes on with that message (an error of reading
    its [content], then of reading the first variable, is what the call
    raises). On the empty conversation [chat_completion] raises
    [IndexError] at once, with no service called and the state untouched;
    nothing in the function catches it, so the caller gets the exception
    and no answer. *)
Theorem chat_completion_last_message_bounds messages stream session_state context s :
  (messages <> [] ->
   exists earlier last,
     messages = (earlier ++ [last])%list /\ list_index messages (-1) = Ok last /\
     chat_completion svc messages stream session_state context s <>
       {| result := Raise IndexError; final := s; events := [] |} /\
     (forall e, subscript last (PStr "content") = Raise e ->
        chat_completion svc messages stream session_state context s =
        {| result := Raise e; final := s; events := [] |}) /\
     (forall q, subscript last (PStr "content") = Ok q ->
        environ s !! "AZURE_OPENAI_CHAT_DEPLOYMENT" = None ->
        chat_completion svc messages stream session_state context s =
        {| result := Raise (KeyError (PStr "AZURE_OPENAI_CHAT_DEPLOYMENT"));
           final := s; events := [] |})) /\
  (messages = [] ->
   chat_completion svc messages stream session_state context s =
   {| result := Raise IndexError; final := s; events := [] |} /\
   forall (B : Type) (k : PyVal -> M B),
     bind (chat_completion svc messages stream session_state context) k s =
     {| result := Raise IndexError; final := s; events := [] |}).
Proof.
  split.
  - intros Hne. destruct (nonempty_snoc messages Hne) as (earlier & last & ->).
    exists earlier, last. rewrite chat_completion_snoc.
    split; [reflexivity | split; [apply list_index_last | split; [| split]]].
    + apply chat_completion_read_in_bounds.
    + intros e. apply chat_completion_content_error.
    + intros q. apply chat_completion_deployment_error.
  - intros ->. split; [apply chat_completion_empty |].
    intros B k. unfold bind. now rewrite chat_completion_empty.
Qed.


(** C5. Two calls that differ in [stream] only are the same run: same
    result, same final state, same calls to the services. *)
Theorem chat_completion_stream_irrelevant messages stream1 stream2 session_state context s :
  chat_completion svc messages stream1 session_state context s =
  chat_completion svc messages stream2 session_state context s.
Proof. unfold chat_completion. reflexivity. Qed.



Lemma messages_cases (messages : list PyVal) :
  messages = [] \/ exists earlier last, messages = (earlier ++ [last])%list.
Proof.
  destruct messages as [| m ms]; [now left | right].
  apply nonempty_snoc. discriminate.
Qed.


Lemma chat_completion_frame last stream session_state context s k :
  k <> TARGET -> k <> KEY ->
  environ (final (chat_completion svc [last] stream session_state context s)) !! k =
  environ s !! k.
Proof.
  unfold TARGET, KEY. intros Ht Hk.
  chat_exec last; rewrite ?lookup_insert_ne by congruence; reflexivity.
Qed.

Lemma chat_completion_credentials last stream session_state context s :
  In (EvMLIndex (search_index_folder svc))
     (events (chat_completion svc [last] stream session_state context s)) ->
  exists endpoint key,
    environ s !! "AZURE_AI_SEARCH_ENDPOINT" = Some endpoint /\
    environ s !! "AZURE_AI_SEARCH_KEY" = Some key /\
    environ (final (chat_completion svc [last] stream session_state context s)) =
    <[KEY := key]> (<[TARGET := endpoint]> (environ s)).
Proof.
  unfold TARGET, KEY.
  chat_exec last; intros H; in_events.
  all: eexists _, _; split; [reflexivity | split; [eassumption | reflexivity]].
Qed.

Lemma chat_completion_ok_credentials last stream session_state context s answer :
  result (chat_completion svc [last] stream session_state context s) = Ok answer ->
  In (EvMLIndex (search_index_folder svc))
     (events (chat_completion svc [last] stream session_state context s)).
Proof.
  chat_exec last; intros H; first [discriminate H | cbn; tauto].
Qed.

(** C9, as amended. A call writes no environment variable besides
    [AZURE_COGNITIVE_SEARCH_TARGET] and [AZURE_COGNITIVE_SEARCH_KEY].
    Once [setup_credentials] has run to its end in the call (the index is
    loaded right after it, which the trace shows), the first holds the
    value of [AZURE_AI_SEARCH_ENDPOINT] and the second the value of
    [AZURE_AI_SEARCH_KEY]. Every call that returns an answer is such a
    call, and so is every call whose last message has a content, whose
    eight variables are set and whose chat model and client are configured
    without error. The services themselves are taken not to write the
    environment. *)
Theorem chat_completion_environment messages stream session_state context s :
  let r := chat_completion svc messages stream session_state context s in
  (forall k, k <> TARGET -> k <> KEY -> environ (final r) !! k = environ s !! k) /\
  (In (EvMLIndex (search_index_folder svc)) (events r) ->
   exists endpoint key,
     environ s !! "AZURE_AI_SEARCH_ENDPOINT" = Some endpoint /\
     environ s !! "AZURE_AI_SEARCH_KEY" = Some key /\
     environ (final r) !! TARGET = Some endpoint /\
     environ (final r) !! KEY = Some key /\
     environ (final r) = <[KEY := key]> (<[TARGET := endpoint]> (environ s))) /\
  (forall answer, result r = Ok answer ->
   In (EvMLIndex (search_index_folder svc)) (events r)) /\
  (forall last q dep model t k v b endpoint key client,
     list_index messages (-1) = Ok last ->
     subscript last (PStr "content") = Ok q ->
     environ s !! "AZURE_OPENAI_CHAT_DEPLOYMENT" = Some dep ->
     environ s !! "AZURE_OPENAI_CHAT_MODEL" = Some model ->
     environ s !! "OPENAI_API_TYPE" = Some t ->
     environ s !! "OPENAI_API_KEY" = Some k ->
     environ s !! "OPENAI_API_VERSION" = Some v ->
     environ s !! "OPENAI_API_BASE" = Some b ->
     environ s !! "AZURE_AI_SEARCH_ENDPOINT" = Some endpoint ->
     environ s !! "AZURE_AI_SEARCH_KEY" = Some key ->
     AzureChatOpenAI svc
       {| deployment_name := dep; model_name := model;
          temperature := dict_get context "temperature" (PFloat 0.7) |} s = Ok tt ->
     AIClient_from_config svc s = Ok client ->
     In (EvMLIndex (search_index_folder svc)) (events r) /\
     environ (final r) !! TARGET = Some endpoint /\
     environ (final r) !! KEY = Some key).
Proof.
  cbv zeta.
  destruct (messages_cases messages) as [-> | (earlier & last & ->)].
  - rewrite chat_completion_empty. cbn [events final result].
    split; [reflexivity | split; [intros [] | split; [discriminate |]]].
    intros last q dep model t k v b endpoint key client H.
    now rewrite list_index_empty in H.
  - rewrite chat_completion_snoc. split; [| split; [| split]].
    + intros k. apply chat_completion_frame.
    + intros H.
      destruct (chat_completion_credentials _ _ _ _ _ H) as (endpoint & key & He & Hk & ->).
      exists endpoint, key. split; [exact He | split; [exact Hk | split; [| split]]].
      * unfold TARGET, KEY. rewrite lookup_insert_ne by discriminate.
        apply lookup_insert_eq.
      * apply lookup_insert_eq.
      * reflexivity.
    + intros answer. apply chat_completion_ok_credentials.
    + intros last' q dep model t k v b endpoint key client Hlast.
      rewrite list_index_last in Hlast. injection Hlast as <-.
      intros Hq Hdep Hmodel Ht Hk Hv Hb He Hkey Hllm Hclient.
      destruct (chat_completion_writes last stream session_state context s
                  q dep model t k v b endpoint key client
                  Hq Hdep Hmodel Ht Hk Hv Hb He Hkey Hllm Hclient) as [Henv Hin].
      split; [exact Hin |]. rewrite Henv. split.
      * unfold TARGET, KEY. rewrite lookup_insert_ne by discriminate.
        apply lookup_insert_eq.
      * apply lookup_insert_eq.
Qed.

End WithServices.

Lemma chat_completion_last_message_bounds_witness :
  (exists earlier last,
     [Demo.user "hello"; Demo.assistant "hi"; Demo.user "which tent is the most waterproof?"]
     = (earlier ++ [last])%list /\
     list_index [Demo.user "hello"; Demo.assistant "hi";
                 Demo.user "which tent is the most waterproof?"] (-1) = Ok last /\
     chat_completion Demo.services
       [Demo.user "hello"; Demo.assistant "hi";
        Demo.user "which tent is the most waterproof?"] false PNone [] Demo.state <>
     {| result := Raise IndexError; final := Demo.state; events := [] |}) /\
  chat_completion Demo.services [] false PNone [] Demo.state =
  {| result := Raise IndexError; final := Demo.state; events := [] |}.
Proof.
  split.
  - destruct (chat_completion_last_message_bounds Demo.services
                [Demo.user "hello"; Demo.assistant "hi";
                 Demo.user "which tent is the most waterproof?"]
                false PNone [] Demo.state) as [Hbounds _].
    destruct (Hbounds ltac:(discriminate)) as (earlier & last & Heq & Hidx & Hne & _).
    exists earlier, last. split; [exact Heq | split; [exact Hidx | exact Hne]].
  - apply (chat_completion_last_message_bounds Demo.services [] false PNone [] Demo.state).
    reflexivity.
Defined.



Lemma chat_completion_environment_witness :
  let r := chat_completion Demo.services [Demo.user "which tent is the most waterproof?"]
             false PNone [] Demo.state in
  environ (final r) !! TARGET = Some "https://contoso.search.windows.net" /\
  environ (final r) !! KEY = Some "k-search" /\
  environ (final r) !! "OPENAI_API_KEY" = Some "k-openai".
Proof.
  cbv zeta.
  destruct (chat_completion_environment Demo.services
              [Demo.user "which tent is the most waterproof?"] false PNone [] Demo.state)
    as (Hframe & _ & _ & Hwrites).
  destruct (Hwrites (Demo.user "which tent is the most waterproof?")
              (PStr "which tent is the most waterproof?")
              "gpt-35-turbo-16k-0613" "gpt-35-turbo-16k"
              "azure" "k-openai" "2023-05-15" "https://contoso.openai.azure.com"
              "https://contoso.search.windows.net" "k-search"
              ("contoso-project", PStr "azureml://contoso"))
    as (_ & Ht & Hk); try (vm_compute; reflexivity).
  split; [exact Ht | split; [exact Hk |]].
  rewrite Hframe by discriminate. vm_compute. reflexivity.
Defined.

Lemma chat_completion_environment_counterexample :
  environ Demo.state !! "AZURE_AI_SEARCH_ENDPOINT" =
    Some "https://contoso.search.windows.net" /\
  final (chat_completion Demo.services [] false PNone [] Demo.state) = Demo.state /\
  environ (final (chat_completion Demo.services [] false PNone [] Demo.state)) !! TARGET
    = None /\
  environ (final (chat_completion Demo.services [] false PNone [] Demo.state)) !! KEY
    = None /\
  environ (final (chat_completion Demo.services [PDict [("role", PStr "user")]]
                    false PNone [] Demo.state)) !! TARGET = None.
Proof. repeat split; vm_compute; reflexivity. Qed.

End ChatProps.

(** ** Properties of [run.py] *)

Module RunProps.
Import Run.

(** *** Reading lines *)

Lemma readlines_terminated l text :
  terminated l = true -> readlines (l +:+ text) = l :: readlines text.
Proof.
  induction l as [| c rest IH]; [discriminate |].
  cbn [terminated]. intros H.
  change (String c rest +:+ text) with (String c (rest +:+ text)).
  cbn [readlines].
  destruct (Ascii.eqb c newline) eqn:Hc.
  - destruct rest; [| discriminate]. reflexivity.
  - rewrite (IH H). reflexivity.
Qed.

Lemma readlines_unterminated l :
  unterminated l = true -> readlines l = [l].
Proof.
  induction l as [| c rest IH]; [discriminate |].
  cbn [unterminated readlines].
  destruct (Ascii.eqb c newline) eqn:Hc; [discriminate |].
  cbn [negb andb].
  destruct rest as [| c' rest']; [reflexivity |].
  intros H. rewrite (IH H). reflexivity.
Qed.

Lemma append_empty_r (s : string) : s +:+ EmptyString = s.
Proof.
  induction s as [| c s IH]; [reflexivity |].
  change (String c s +:+ EmptyString) with (String c (s +:+ EmptyString)).
  now rewrite IH.
Qed.

Lemma readlines_file_text ls :
  file_lines ls = true -> readlines (file_text ls) = ls.
Proof.
  induction ls as [| l rest IH]; [reflexivity |].
  destruct rest as [| l' rest'].
  - cbn [file_lines file_text fold_right]. rewrite append_empty_r.
    intros H. apply orb_true_iff in H as [H | H].
    + rewrite <- (append_empty_r l) at 1. now rewrite (readlines_terminated _ _ H).
    + now apply readlines_unterminated.
  - intros H. change (file_lines (l :: l' :: rest'))
      with (terminated l && file_lines (l' :: rest')) in H.
    apply andb_true_iff in H as [Hl Hrest].
    change (file_text (l :: l' :: rest')) with (l +:+ file_text (l' :: rest')).
    rewrite (readlines_terminated _ _ Hl). now rewrite (IH Hrest).
Qed.

Lemma comprehension_Forall2 {A B} (f : A -> Res B) l ys :
  Forall2 (fun x y => f x = Ok y) l ys -> comprehension f l = Ok ys.
Proof.
  induction 1 as [| x y l ys Hxy _ IH]; [reflexivity |].
  cbn [comprehension]. now rewrite Hxy, IH.
Qed.

Lemma comprehension_ok {A B} (f : A -> Res B) l ys :
  comprehension f l = Ok ys -> Forall2 (fun x y => f x = Ok y) l ys.
Proof.
  revert ys. induction l as [| x l IH]; intros ys; cbn [comprehension].
  - intros [= <-]. constructor.
  - destruct (f x) as [y | e] eqn:Hx; [| discriminate].
    destruct (comprehension f l) as [ys' | e]; [| discriminate].
    intros [= <-]. constructor; auto.
Qed.

Lemma comprehension_total {A B} (f : A -> Res B) (P : B -> Prop) l :
  (forall x, In x l -> exists y, f x = Ok y /\ P y) ->
  exists ys, Forall2 (fun x y => f x = Ok y) l ys /\ Forall P ys.
Proof.
  induction l as [| x l IH]; intros H.
  - exists []. split; constructor.
  - destruct (H x (or_introl eq_refl)) as (y & Hy & Py).
    destruct IH as (ys & Hys & Pys); [intros x' Hx'; apply H; now right |].
    exists (y :: ys). split; constructor; assumption.
Qed.

Section WithServices.
Variable svc : Services.

Lemma set_event_loop_policy_run {B} (k : unit -> M B) s :
  bind (set_event_loop_policy svc) k s = prepend (policy_events svc) (k tt s).
Proof.
  unfold set_event_loop_policy, policy_events.
  destruct (String.eqb (platform_system svc) "Windows").
  - apply bind_emit.
  - rewrite bind_ret. now rewrite prepend_nil.
Qed.

(** *** [copilot_qna] *)

(** C10. Whatever the chat-completion function does, [copilot_qna] calls
    it on the conversation of one message, role [user] and content the
    question: the trace is the call on that conversation followed by what
    the function itself does there, the state is the one the function
    leaves, an exception of the function is the exception of
    [copilot_qna], and a function that agrees with it on this one
    conversation gives the same run. *)
Theorem copilot_qna_single_user_message question fn s :
  let conversation := [PDict [("role", PStr "user"); ("content", question)]] in
  let r := copilot_qna svc question fn s in
  events r =
    (policy_events svc ++ EvChatCompletion conversation :: events (fn conversation s))%list /\
  final r = final (fn conversation s) /\
  (forall e, result (fn conversation s) = Raise e -> result r = Raise e) /\
  (forall fn' : ChatFn,
     fn' conversation s = fn conversation s -> copilot_qna svc question fn' s = r).
Proof.
  cbv zeta. unfold copilot_qna, user_message.
  rewrite set_event_loop_policy_run, bind_emit.
  split; [| split; [| split]].
  - destruct (result (fn [PDict [("role", PStr "user"); ("content", question)]] s))
      as [a | e] eqn:Hfn.
    + rewrite (bind_run_ok _ _ _ _ Hfn). exec; finish_run; now rewrite app_nil_r.
    + now rewrite (bind_run_raise _ _ _ _ Hfn).
  - destruct (result (fn [PDict [("role", PStr "user"); ("content", question)]] s))
      as [a | e] eqn:Hfn.
    + rewrite (bind_run_ok _ _ _ _ Hfn). exec; finish_run; reflexivity.
    + now rewrite (bind_run_raise _ _ _ _ Hfn).
  - intros e Hfn. now rewrite (bind_run_raise _ _ _ _ Hfn).
  - intros fn' Heq. rewrite set_event_loop_policy_run, bind_emit.
    unfold bind at 1 3. now rewrite Heq.
Qed.

(** C1, as amended. When the chat-completion function returns a response
    with a [choices] entry whose element 0 has a [message] with a
    [content], and a [context], [copilot_qna] returns the record of the
    question, that content as the answer, and that context. *)
Theorem copilot_qna_record q fn s response choices choice message answer context :
  result (fn [user_message (PStr q)] s) = Ok response ->
  subscript response (PStr "choices") = Ok choices ->
  subscript choices (PInt 0) = Ok choice ->
  subscript choice (PStr "message") = Ok message ->
  subscript message (PStr "content") = Ok answer ->
  subscript choice (PStr "context") = Ok context ->
  result (copilot_qna svc (PStr q) fn s) =
  Ok (PDict [("question", PStr q); ("answer", answer); ("context", context)]).
Proof.
  intros Hfn Hchoices Hchoice Hmessage Hanswer Hcontext.
  unfold copilot_qna.
  rewrite set_event_loop_policy_run, bind_emit.
  rewrite (bind_run_ok _ _ _ _ Hfn).
  rewrite (bind_lift_ok _ _ _ _ Hchoices), (bind_lift_ok _ _ _ _ Hchoice),
          (bind_lift_ok _ _ _ _ Hmessage), (bind_lift_ok _ _ _ _ Hanswer),
          (bind_lift_ok _ _ _ _ Hcontext).
  reflexivity.
Qed.

(** *** The dataset *)

Lemma load_jsonl_run path text s :
  read_text svc path = Some text ->
  load_jsonl svc path s =
  {| result := comprehension (json_loads svc) (readlines text);
     final := s; events := [EvOpen path] |}.
Proof.
  intros Hread. unfold load_jsonl.
  rewrite (bind_extern_ok _ _ _ _ text) by now rewrite Hread.
  reflexivity.
Qed.

Lemma Forall2_pointwise {A B} (R : A -> B -> Prop) (P : B -> Prop) l ys :
  Forall2 R l ys -> (forall x y, In x l -> R x y -> P y) -> Forall P ys.
Proof.
  induction 1 as [| x y l ys Hxy _ IH]; intros H; constructor.
  - apply (H x y); [now left | exact Hxy].
  - apply IH. intros x' y' Hin. apply H. now right.
Qed.

(** C6. A file of N lines (each closed by its newline, the last one
    perhaps not), each of which [json.loads] accepts, is loaded as exactly
    N records, the i-th record being what [json.loads] makes of the i-th
    line; nothing but the file is touched. When the lines are rows of an
    evaluation dataset (objects with a [question] and a [truth]), so is
    every record. *)
Theorem load_jsonl_records path ls s :
  read_text svc path = Some (file_text ls) ->
  file_lines ls = true ->
  (forall l, In l ls -> exists v, json_loads svc l = Ok v) ->
  exists records,
    load_jsonl svc path s =
      {| result := Ok records; final := s; events := [EvOpen path] |} /\
    length records = length ls /\
    Forall2 (fun l v => json_loads svc l = Ok v) ls records /\
    ((forall l v, In l ls -> json_loads svc l = Ok v -> evaluation_row v = true) ->
     Forall (fun v => evaluation_row v = true) records).
Proof.
  intros Hread Hlines Hjson.
  destruct (comprehension_total (json_loads svc) (fun _ => True) ls)
    as (records & Hrecords & _).
  { intros l Hl. destruct (Hjson l Hl) as (v & Hv). now exists v. }
  exists records. split; [| split; [| split]].
  - rewrite (load_jsonl_run path _ s Hread), (readlines_file_text ls Hlines).
    now rewrite (comprehension_Forall2 _ _ _ Hrecords).
  - symmetry. apply (Forall2_length _ _ _ Hrecords).
  - exact Hrecords.
  - intros Hrows. apply (Forall2_pointwise _ _ _ _ Hrecords). exact Hrows.
Qed.

(** The evaluator is handed the records of the file and is pointed at the
    fields [question] and [truth]. *)
Lemma run_evaluation_dataset fn name p records s :
  load_jsonl svc (path_join svc (cwd svc) p) s =
    {| result := Ok records; final := s; events := [EvOpen (path_join svc (cwd svc) p)] |} ->
  forall client, AIClient_from_config svc s = Ok client ->
  exists args,
    run_evaluation svc fn name (PStr p) s =
      prepend [EvOpen (path_join svc (cwd svc) p); EvAIClientFromConfig;
               EvEvaluate name records]
              (sdk_evaluate svc args s) /\
    data args = records /\
    truth_data args = "truth" /\
    prediction_data args = "answer" /\
    subscript (metrics_config args) (PStr "questions") = Ok (PStr "question").
Proof.
  intros Hload client Hclient. unfold run_evaluation, path_div.
  rewrite (bind_lift_ok _ _ _ _ eq_refl).
  rewrite (bind_run_ok _ _ _ records) by now rewrite Hload.
  rewrite Hload. cbn [events final].
  rewrite (bind_extern_ok _ _ _ _ client Hclient).
  rewrite !bind_getenv_opt, bind_emit.
  eexists. split; [| split; [| split; [| split]]].
  - unfold prepend. cbn [result final events app]. reflexivity.
  - reflexivity.
  - reflexivity.
  - reflexivity.
  - reflexivity.
Qed.

(** *** The dataset path of the command line *)

Lemma run_evaluation_bool_path fn name b s :
  run_evaluation svc fn name (PBool b) s =
  {| result := Raise TypeError; final := s; events := [] |}.
Proof.
  unfold run_evaluation, path_div.
  now rewrite (bind_lift_raise _ _ _ TypeError eq_refl).
Qed.

(** *** The choice of the backend *)

Lemma import_implementation_unknown name s :
  known_implementation name = false ->
  import_implementation svc name s = {| result := Ok None; final := s; events := [] |}.
Proof.
  unfold known_implementation, import_implementation. intros H.
  apply orb_false_iff in H as [H Haisdk].
  apply orb_false_iff in H as [H Hlangchain].
  apply orb_false_iff in H as [Hpromptflow Hsk].
  rewrite Hpromptflow, Hsk, Hlangchain, Haisdk.
  now destruct (str_truthy name).
Qed.

(** C2, as amended. For a name outside the four backends no backend is
    imported and none takes its place. Without [--build-index], the
    evaluation and the question command then stop with a [NameError] for
    [chat_completion] before any service is called; with [--build-index]
    the script builds the index and never reads the name. *)
Theorem unknown_implementation_dispatch args s :
  known_implementation (implementation args) = false ->
  import_implementation svc (implementation args) s =
    {| result := Ok None; final := s; events := [] |} /\
  (build_index args = false -> evaluate args = true \/ deploy args = false ->
   dispatch svc args s =
     {| result := Raise (NameError "chat_completion"); final := s; events := [] |}) /\
  (build_index args = true ->
   dispatch svc args s =
     build_cogsearch_index svc "contoso_product_index" "data/3-product_info" s).
Proof.
  intros Hunknown.
  pose proof (import_implementation_unknown _ s Hunknown) as Himport.
  split; [exact Himport | split].
  - intros Hbuild Hcommand. unfold dispatch.
    rewrite (bind_run_ok _ _ _ None) by now rewrite Himport.
    rewrite Himport, Hbuild. cbn [events final lookup_chat_completion].
    destruct (evaluate args).
    + now rewrite bind_raise.
    + destruct Hcommand as [Hc | Hc]; [discriminate |]. rewrite Hc.
      now rewrite bind_raise.
  - intros Hbuild. unfold dispatch.
    rewrite (bind_run_ok _ _ _ None) by now rewrite Himport.
    rewrite Himport, Hbuild. cbn [events final]. apply prepend_nil.
Qed.

End WithServices.

Lemma copilot_qna_record_witness :
  result (copilot_qna Demo.services (PStr "which tent is the most waterproof?")
            (Demo.protocol_backend "The Alpine Explorer Tent.") Demo.state) =
  Ok (PDict [("question", PStr "which tent is the most waterproof?");
             ("answer", PStr "The Alpine Explorer Tent.");
             ("context", PDict [("documents", PStr "tent catalog")])]).
Proof.
  apply (copilot_qna_record Demo.services "which tent is the most waterproof?"
           (Demo.protocol_backend "The Alpine Explorer Tent.") Demo.state
           (Demo.protocol_response "The Alpine Explorer Tent.")
           (PList [PDict [("message", PDict [("role", PStr "assistant");
                                             ("content", PStr "The Alpine Explorer Tent.")]);
                          ("context", PDict [("documents", PStr "tent catalog")])]])
           (PDict [("message", PDict [("role", PStr "assistant");
                                      ("content", PStr "The Alpine Explorer Tent.")]);
                   ("context", PDict [("documents", PStr "tent catalog")])])
           (PDict [("role", PStr "assistant");
                   ("content", PStr "The Alpine Explorer Tent.")]));
    reflexivity.
Defined.

Lemma copilot_qna_answer_counterexample :
  result (copilot_qna Demo.services (PStr "which tent is the most waterproof?")
            (Demo.protocol_backend EmptyString) Demo.state) =
  Ok (PDict [("question", PStr "which tent is the most waterproof?");
             ("answer", PStr EmptyString);
             ("context", PDict [("documents", PStr "tent catalog")])]) /\
  result (copilot_qna Demo.services (PStr "which tent is the most waterproof?")
            (fun messages => Chat.chat_completion Demo.services messages false PNone [])
            Demo.state) =
  Raise TypeError.
Proof. split; vm_compute; reflexivity. Qed.

Lemma load_jsonl_records_witness :
  exists records,
    load_jsonl Demo.services Demo.dataset_file Demo.state =
      {| result := Ok records; final := Demo.state;
         events := [EvOpen Demo.dataset_file] |} /\
    length records = 2 /\
    Forall (fun v => evaluation_row v = true) records.
Proof.
  destruct (load_jsonl_records Demo.services Demo.dataset_file
              [Demo.line1; Demo.line2] Demo.state)
    as (records & Hrun & Hlen & _ & Hrows).
  - vm_compute. reflexivity.
  - vm_compute. reflexivity.
  - intros l [<- | [<- | []]]; eexists; vm_compute; reflexivity.
  - exists records. split; [exact Hrun | split; [exact Hlen | apply Hrows]].
    intros l v [<- | [<- | []]] Hv; vm_compute in Hv; injection Hv as <-; reflexivity.
Defined.

Lemma unknown_implementation_dispatch_witness :
  dispatch Demo.services
    {| question := Some "which tent is the most waterproof?";
       implementation := "tensorflow"; deploy := false; evaluate := false;
       dataset_path := PStr "src/tests/evaluation_dataset.jsonl";
       deployment_name := None; build_index := false |} Demo.state =
  {| result := Raise (NameError "chat_completion"); final := Demo.state; events := [] |}.
Proof.
  apply (unknown_implementation_dispatch Demo.services
           {| question := Some "which tent is the most waterproof?";
              implementation := "tensorflow"; deploy := false; evaluate := false;
              dataset_path := PStr "src/tests/evaluation_dataset.jsonl";
              deployment_name := None; build_index := false |} Demo.state).
  - reflexivity.
  - reflexivity.
  - right. reflexivity.
Defined.

Lemma unknown_implementation_counterexample :
  known_implementation "tensorflow" = false /\
  exists r,
    run_script Demo.services ["--implementation"; "tensorflow"; "--build-index"]
      Demo.state = Some r /\
    result r = Ok tt /\
    events r =
      [ EvAIClientFromConfig;
        EvBuildMLIndex "contoso_product_index"
          "azure_open_ai://deployment/text-ada-embedding-002-2/model/text-embedding-ada-002"
          "https://product_info.com" "data/3-product_info";
        EvCreateOrUpdateIndex;
        EvPrint (PStr "Created index 'contoso_product_index'");
        EvPrint (PStr "Local Path: ./contoso_product_index-mlindex");
        EvPrint (PStr "Cloud Path: azureml://indexes/contoso") ].
Proof.
  split; [reflexivity |].
  eexists. split; [vm_compute; reflexivity |].
  split; vm_compute; reflexivity.
Qed.

(** C3. Without [--dataset-path] the evaluation gets the bundled JSONL
    path, a string. With [--dataset-path] on the command line [argparse]
    stores [True]: [run_evaluation] then raises [TypeError] on
    [Path.cwd() / True] before any file is opened, and a path written
    after the flag is refused as an unrecognized argument. *)
Theorem dataset_path_flag :
  (exists args,
     parse_args ["--evaluate"] = Some (Ok args) /\
     evaluate args = true /\
     dataset_path args = PStr "src/tests/evaluation_dataset.jsonl") /\
  (exists args,
     parse_args ["--evaluate"; "--dataset-path"] = Some (Ok args) /\
     evaluate args = true /\
     dataset_path args = PBool true) /\
  parse_args ["--evaluate"; "--dataset-path"; "data/questions.jsonl"] =
    Some (Raise (SystemExit 2)) /\
  (forall svc fn name s,
     run_evaluation svc fn name (PBool true) s =
     {| result := Raise TypeError; final := s; events := [] |}) /\
  (exists r,
     run_script Demo.services
       ["--implementation"; "langchain"; "--evaluate"; "--dataset-path"] Demo.state
       = Some r /\
     result r = Raise TypeError /\
     events r = [EvImport "copilot_langchain.chat"]).
Proof.
  split; [| split; [| split; [| split]]].
  - eexists. split; [vm_compute; reflexivity | split; reflexivity].
  - eexists. split; [vm_compute; reflexivity | split; reflexivity].
  - vm_compute. reflexivity.
  - intros svc fn name s. apply run_evaluation_bool_path.
  - eexists. split; [vm_compute; reflexivity |]. split; vm_compute; reflexivity.
Qed.

End RunProps.

(** * More of the two modules *)

(** ** Services that fail, to run the error paths on *)

Module Outage.

(** [Demo.services] with its files and three of its services replaced. *)
Definition services_with
    (files : string -> option string)
    (client : State -> Res (string * PyVal))
    (chain : PyVal -> State -> Res PyVal)
    (backend : string -> State -> Res ChatFn) : Services :=
  {| MLIndexT := unit;
     RetrieverT := unit;
     ChainT := unit;
     search_index_folder := search_index_folder Demo.services;
     platform_system := platform_system Demo.services;
     cwd := cwd Demo.services;
     path_join := path_join Demo.services;
     read_text := files;
     json_loads := json_loads Demo.services;
     AzureChatOpenAI := fun _ _ => Ok tt;
     AIClient_from_config := client;
     MLIndex := fun _ _ => Ok tt;
     as_langchain_retriever := fun _ _ => Ok tt;
     RetrievalQA_from_chain_type := fun _ _ _ => Ok tt;
     chain_call := fun _ => chain;
     build_mlindex := build_mlindex Demo.services;
     mlindexes_create_or_update := mlindexes_create_or_update Demo.services;
     sdk_evaluate := sdk_evaluate Demo.services;
     import_backend := backend |}.

(** No credentials for the project: the client cannot be configured. *)
Definition no_client : Services :=
  services_with (read_text Demo.services)
                (fun _ => Raise (ServiceError "no credentials"))
                (fun _ _ => Ok Demo.chain_response)
                (import_backend Demo.services).

(** The hosted chat model is unreachable. *)
Definition no_chain : Services :=
  services_with (read_text Demo.services)
                (AIClient_from_config Demo.services)
                (fun _ _ => Raise (ServiceError "chat model unreachable"))
                (import_backend Demo.services).

(** The other backend packages are not installed. *)
Definition no_backend : Services :=
  services_with (read_text Demo.services)
                (AIClient_from_config Demo.services)
                (fun _ _ => Ok Demo.chain_response)
                (fun module _ => Raise (ImportError module)).

(** A line that is no JSON, between the two rows of the dataset. *)
Definition torn_line : string := "<<<<<<< HEAD" +:+ String Run.newline EmptyString.

Definition torn_dataset : Services :=
  services_with (fun p => if String.eqb p Demo.dataset_file
                          then Some (Demo.line1 +:+ torn_line +:+ Demo.line2)
                          else None)
                (AIClient_from_config Demo.services)
                (fun _ _ => Ok Demo.chain_response)
                (import_backend Demo.services).

(** The environment without the key of the search service. *)
Definition state_without_search_key : State :=
  {| environ := delete "AZURE_AI_SEARCH_KEY" Demo.env; openai := openai Demo.state |}.

End Outage.

(** A command line names the option [--dataset-path]. *)
Definition mentions_dataset_path (argv : list string) : bool :=
  existsb (String.eqb "--dataset-path") argv.

(** A command line names the option [--build-index]. *)
Definition mentions_build_index (argv : list string) : bool :=
  existsb (String.eqb "--build-index") argv.

(** The question the script asks: the one of the command line unless it is
    absent or empty. *)
Definition asked_question (args : Run.Args) : string :=
  match Run.question args with
  | Some q => if str_truthy q then q else "which tent is the most waterproof?"
  | None => "which tent is the most waterproof?"
  end.

(** ** More properties of [chat.py] *)

Module ChatExtras.
Import Chat.

(** With its six variables set, the run of [setup_credentials]. *)
Lemma setup_credentials_configured s t k v b endpoint key :
  environ s !! "OPENAI_API_TYPE" = Some t ->
  environ s !! "OPENAI_API_KEY" = Some k ->
  environ s !! "OPENAI_API_VERSION" = Some v ->
  environ s !! "OPENAI_API_BASE" = Some b ->
  environ s !! "AZURE_AI_SEARCH_ENDPOINT" = Some endpoint ->
  environ s !! "AZURE_AI_SEARCH_KEY" = Some key ->
  setup_credentials s =
    {| result := Ok tt;
       final := {| environ := <[KEY := key]> (<[TARGET := endpoint]> (environ s));
                   openai := {| api_type := Some t; api_key := Some k;
                                api_version := Some v; api_base := Some b |} |};
       events := [] |}.
Proof.
  intros Ht Hk Hv Hb He Hkey. unfold setup_credentials, TARGET, KEY.
  exec; finish_run; congruence.
Qed.

(** X1. [setup_credentials] returns exactly when the six variables it reads
    are set; it then leaves the two search variables holding the endpoint
    and the key, the [openai] module holding the four OpenAI values, and
    calls no service. *)
Theorem setup_credentials_returns_iff s :
  (result (setup_credentials s) = Ok tt <->
   is_Some (environ s !! "OPENAI_API_TYPE") /\
   is_Some (environ s !! "OPENAI_API_KEY") /\
   is_Some (environ s !! "OPENAI_API_VERSION") /\
   is_Some (environ s !! "OPENAI_API_BASE") /\
   is_Some (environ s !! "AZURE_AI_SEARCH_ENDPOINT") /\
   is_Some (environ s !! "AZURE_AI_SEARCH_KEY")) /\
  (forall t k v b endpoint key,
     environ s !! "OPENAI_API_TYPE" = Some t ->
     environ s !! "OPENAI_API_KEY" = Some k ->
     environ s !! "OPENAI_API_VERSION" = Some v ->
     environ s !! "OPENAI_API_BASE" = Some b ->
     environ s !! "AZURE_AI_SEARCH_ENDPOINT" = Some endpoint ->
     environ s !! "AZURE_AI_SEARCH_KEY" = Some key ->
     setup_credentials s =
     {| result := Ok tt;
        final := {| environ := <[KEY := key]> (<[TARGET := endpoint]> (environ s));
                    openai := {| api_type := Some t; api_key := Some k;
                                 api_version := Some v; api_base := Some b |} |};
        events := [] |}).
Proof.
  split; [split |].
  - intros Hok.
    destruct (ChatProps.setup_credentials_ok s Hok)
      as (t & k & v & b & endpoint & key & Ht & Hk & Hv & Hb & He & Hkey & _).
    rewrite Ht, Hk, Hv, Hb, He, Hkey. repeat split; eexists; reflexivity.
  - intros ([t Ht] & [k Hk] & [v Hv] & [b Hb] & [endpoint He] & [key Hkey]).
    now rewrite (setup_credentials_configured s t k v b endpoint key).
  - apply setup_credentials_configured.
Qed.

(** X2. [setup_credentials] is not all-or-nothing: with the four
    [OPENAI_API_*] variables and [AZURE_AI_SEARCH_ENDPOINT] set and
    [AZURE_AI_SEARCH_KEY] missing, it raises [KeyError] for that name after
    it has already written [AZURE_COGNITIVE_SEARCH_TARGET]; the other
    search variable is left as it was. *)
Theorem setup_credentials_partial_write s t k v b endpoint :
  environ s !! "OPENAI_API_TYPE" = Some t ->
  environ s !! "OPENAI_API_KEY" = Some k ->
  environ s !! "OPENAI_API_VERSION" = Some v ->
  environ s !! "OPENAI_API_BASE" = Some b ->
  environ s !! "AZURE_AI_SEARCH_ENDPOINT" = Some endpoint ->
  environ s !! "AZURE_AI_SEARCH_KEY" = None ->
  result (setup_credentials s) = Raise (KeyError (PStr "AZURE_AI_SEARCH_KEY")) /\
  environ (final (setup_credentials s)) = <[TARGET := endpoint]> (environ s) /\
  environ (final (setup_credentials s)) !! KEY = environ s !! KEY.
Proof.
  intros Ht Hk Hv Hb He Hkey. unfold setup_credentials, TARGET, KEY.
  exec; finish_run; try congruence.
  split; [reflexivity | split; [congruence |]].
  now rewrite lookup_insert_ne by discriminate.
Qed.

(** X3. Running [setup_credentials] again from the state a successful run
    left gives the same run: same result, same final state. *)
Theorem setup_credentials_idempotent s :
  result (setup_credentials s) = Ok tt ->
  setup_credentials (final (setup_credentials s)) = setup_credentials s.
Proof.
  intros Hok.
  destruct (ChatProps.setup_credentials_ok s Hok)
    as (t & k & v & b & endpoint & key & Ht & Hk & Hv & Hb & He & Hkey & Hrun).
  rewrite Hrun. cbn [final].
  set (s1 := {| environ := <[KEY := key]> (<[TARGET := endpoint]> (environ s));
                openai := {| api_type := Some t; api_key := Some k;
                             api_version := Some v; api_base := Some b |} |}).
  assert (Hframe : forall x, x <> TARGET -> x <> KEY -> environ s1 !! x = environ s !! x).
  { intros x Hx1 Hx2. unfold s1. cbn [environ].
    now rewrite !lookup_insert_ne by congruence. }
  assert (Hok1 : result (setup_credentials s1) = Ok tt).
  { pose proof (Hframe "OPENAI_API_TYPE") as F1.
    pose proof (Hframe "OPENAI_API_KEY") as F2.
    pose proof (Hframe "OPENAI_API_VERSION") as F3.
    pose proof (Hframe "OPENAI_API_BASE") as F4.
    pose proof (Hframe "AZURE_AI_SEARCH_ENDPOINT") as F5.
    pose proof (Hframe "AZURE_AI_SEARCH_KEY") as F6.
    rewrite Ht in F1. rewrite Hk in F2. rewrite Hv in F3. rewrite Hb in F4.
    rewrite He in F5. rewrite Hkey in F6.
    specialize (F1 ltac:(discriminate) ltac:(discriminate)).
    specialize (F2 ltac:(discriminate) ltac:(discriminate)).
    specialize (F3 ltac:(discriminate) ltac:(discriminate)).
    specialize (F4 ltac:(discriminate) ltac:(discriminate)).
    specialize (F5 ltac:(discriminate) ltac:(discriminate)).
    specialize (F6 ltac:(discriminate) ltac:(discriminate)).
    clearbody s1. clear Hframe Hrun.
    unfold setup_credentials. exec; finish_run; congruence. }
  destruct (ChatProps.setup_credentials_ok s1 Hok1)
    as (t' & k' & v' & b' & endpoint' & key' & Ht' & Hk' & Hv' & Hb' & He' & Hkey' & Hrun').
  rewrite Hframe in Ht', Hk', Hv', Hb', He', Hkey' by discriminate.
  rewrite Hrun'. f_equal. unfold s1 at 2. 
  assert (t' = t) by congruence. assert (k' = k) by congruence.
  assert (v' = v) by congruence. assert (b' = b) by congruence.
  assert (endpoint' = endpoint) by congruence. assert (key' = key) by congruence.
  subst. f_equal. unfold s1. cbn [environ].
  apply map_eq. intros x.
  destruct (decide (x = KEY)) as [-> | Hx1].
  - now rewrite !lookup_insert_eq.
  - rewrite !(lookup_insert_ne _ KEY x) by congruence.
    destruct (decide (x = TARGET)) as [-> | Hx2].
    + now rewrite !lookup_insert_eq.
    + now rewrite !lookup_insert_ne by congruence.
Qed.

Section WithServices.
Variable svc : Services.

Ltac chat_exec last :=
  unfold chat_completion, setup_credentials;
  change [last] with ([] ++ [last])%list;
  rewrite (bind_lift_ok _ _ _ _ (list_index_last [] last));
  exec; finish_run.

(** X4. A conversation whose last message is a dict without a [content]
    key makes [chat_completion] raise [KeyError('content')] before any
    variable is read and any service is called. *)
Theorem chat_completion_message_without_content earlier d stream session_state context s :
  dict_lookup d "content" = None ->
  chat_completion svc (earlier ++ [PDict d])%list stream session_state context s =
  {| result := Raise (KeyError (PStr "content")); final := s; events := [] |}.
Proof.
  intros Hd. unfold chat_completion.
  rewrite (bind_lift_ok _ _ _ _ (list_index_last earlier (PDict d))).
  apply bind_lift_raise. cbn [subscript]. now rewrite Hd.
Qed.

(** X5. [chat_completion] returns an answer only if the eight environment
    variables it reads are all set, and it then leaves exactly the state
    [setup_credentials] builds from them. *)
Theorem chat_completion_returns_only_configured messages stream session_state context s answer :
  result (chat_completion svc messages stream session_state context s) = Ok answer ->
  exists dep model t k v b endpoint key,
    environ s !! "AZURE_OPENAI_CHAT_DEPLOYMENT" = Some dep /\
    environ s !! "AZURE_OPENAI_CHAT_MODEL" = Some model /\
    environ s !! "OPENAI_API_TYPE" = Some t /\
    environ s !! "OPENAI_API_KEY" = Some k /\
    environ s !! "OPENAI_API_VERSION" = Some v /\
    environ s !! "OPENAI_API_BASE" = Some b /\
    environ s !! "AZURE_AI_SEARCH_ENDPOINT" = Some endpoint /\
    environ s !! "AZURE_AI_SEARCH_KEY" = Some key /\
    final (chat_completion svc messages stream session_state context s) =
      {| environ := <[KEY := key]> (<[TARGET := endpoint]> (environ s));
         openai := {| api_type := Some t; api_key := Some k;
                      api_version := Some v; api_base := Some b |} |}.
Proof.
  destruct (ChatProps.messages_cases messages) as [-> | (earlier & last & ->)].
  - rewrite ChatProps.chat_completion_empty. discriminate.
  - rewrite ChatProps.chat_completion_snoc.
    chat_exec last; intros H; try discriminate H.
    eexists _, _, _, _, _, _, _, _.
    repeat (split; [first [reflexivity | eassumption] |]). reflexivity.
Qed.


Lemma chat_completion_answer_of_chain last stream session_state context s answer :
  result (chat_completion svc [last] stream session_state context s) = Ok answer ->
  exists qa q s' response,
    chain_call svc qa q s' = Ok response /\
    subscript response (PStr "result") = Ok answer.
Proof.
  chat_exec last; intros H; try discriminate H.
  eexists _, _, _, _. split; [eassumption | exact H].
Qed.

(** X7. The outcome of the retrieval chain is the outcome of the call:
    when the chain raises on the question [chat_completion] submits, the
    call raises that very exception (no answer is made up), and when it
    answers, the call returns the [result] entry of the answer. The
    question is submitted once, as the last call (no retry). *)
Theorem chat_completion_chain_failure messages stream session_state context s :
  let r := chat_completion svc messages stream session_state context s in
  forall q, In (EvQA q) (events r) ->
    exists args retriever qa before,
      RetrievalQA_from_chain_type svc args retriever (final r) = Ok qa /\
      (forall e, chain_call svc qa q (final r) = Raise e -> result r = Raise e) /\
      (forall response, chain_call svc qa q (final r) = Ok response ->
         result r = subscript response (PStr "result")) /\
      events r = (before ++ [EvQA q])%list /\
      ~ In (EvQA q) before.
Proof.
  cbv zeta.
  destruct (ChatProps.messages_cases messages) as [-> | (earlier & last & ->)].
  - rewrite ChatProps.chat_completion_empty. intros q [].
  - rewrite ChatProps.chat_completion_snoc.
    chat_exec last; intros q H; in_events; subst.
    all: eexists _, _, _, [_; _; _; _; _].
    all: split; [eassumption |].
    all: split; [intros e' He'; congruence |].
    all: split; [intros response Hr; congruence |].
    all: split; [reflexivity | intros H; in_events].
Qed.

End WithServices.

Lemma setup_credentials_partial_write_witness :
  result (setup_credentials Outage.state_without_search_key) =
    Raise (KeyError (PStr "AZURE_AI_SEARCH_KEY")) /\
  environ (final (setup_credentials Outage.state_without_search_key)) !! TARGET =
    Some "https://contoso.search.windows.net".
Proof.
  destruct (setup_credentials_partial_write Outage.state_without_search_key
              "azure" "k-openai" "2023-05-15" "https://contoso.openai.azure.com"
              "https://contoso.search.windows.net")
    as (Hres & Henv & _); try (vm_compute; reflexivity).
  split; [exact Hres |]. rewrite Henv. apply lookup_insert_eq.
Defined.

Lemma setup_credentials_idempotent_witness :
  setup_credentials (final (setup_credentials Demo.state)) = setup_credentials Demo.state.
Proof.
  apply (setup_credentials_idempotent Demo.state). vm_compute. reflexivity.
Defined.

Lemma chat_completion_message_without_content_witness :
  chat_completion Demo.services
    [Demo.user "hello"; PDict [("role", PStr "user"); ("text", PStr "which tent?")]]
    false PNone [] Demo.state =
  {| result := Raise (KeyError (PStr "content")); final := Demo.state; events := [] |}.
Proof.
  apply (chat_completion_message_without_content Demo.services [Demo.user "hello"]
           [("role", PStr "user"); ("text", PStr "which tent?")]
           false PNone [] Demo.state).
  reflexivity.
Defined.

Lemma chat_completion_returns_only_configured_witness :
  exists endpoint key,
    environ Demo.state !! "AZURE_AI_SEARCH_ENDPOINT" = Some endpoint /\
    environ Demo.state !! "AZURE_AI_SEARCH_KEY" = Some key /\
    environ (final (chat_completion Demo.services
                      [Demo.user "which tent is the most waterproof?"]
                      false PNone [] Demo.state)) =
    <[KEY := key]> (<[TARGET := endpoint]> (environ Demo.state)).
Proof.
  destruct (chat_completion_returns_only_configured Demo.services
              [Demo.user "which tent is the most waterproof?"] false PNone [] Demo.state
              (PStr "The Alpine Explorer Tent has a rainfly rated at 3000 mm."))
    as (dep & model & t & k & v & b & endpoint & key & _ & _ & _ & _ & _ & _ & He & Hk & Hf).
  - vm_compute. reflexivity.
  - exists endpoint, key. split; [exact He | split; [exact Hk |]]. now rewrite Hf.
Defined.

Lemma chat_completion_chain_failure_witness :
  result (chat_completion Outage.no_chain [Demo.user "which tent is the most waterproof?"]
            false PNone [] Demo.state) =
  Raise (ServiceError "chat model unreachable").
Proof.
  destruct (chat_completion_chain_failure Outage.no_chain
              [Demo.user "which tent is the most waterproof?"] false PNone [] Demo.state
              (PStr "which tent is the most waterproof?"))
    as (args & retriever & qa & before & _ & Hraise & _).
  - vm_compute. tauto.
  - apply Hraise. reflexivity.
Defined.

End ChatExtras.

(** ** More properties of [run.py] *)

Module RunExtras.
Import Run.

(** *** Lines *)

Lemma newline_eqb c : Ascii.eqb c newline = true -> c = newline.
Proof. apply Ascii.eqb_eq. Qed.

(** X8. The lines [load_jsonl] iterates over lose nothing of the file:
    put end to end they are the text again, and each of them ends in its
    newline, the last one perhaps excepted. *)
Theorem readlines_round_trip text :
  file_text (readlines text) = text /\ file_lines (readlines text) = true.
Proof.
  induction text as [| c rest [IHtext IHlines]]; [split; reflexivity |].
  cbn [readlines].
  destruct (Ascii.eqb c newline) eqn:Hc.
  - apply newline_eqb in Hc. subst c. split.
    + change (file_text (String newline EmptyString :: readlines rest))
        with (String newline (file_text (readlines rest))).
      now rewrite IHtext.
    + destruct (readlines rest) as [| l ls] eqn:Hrest; [reflexivity |].
      change (file_lines (String newline EmptyString :: l :: ls))
        with (terminated (String newline EmptyString) && file_lines (l :: ls)).
      now rewrite IHlines.
  - destruct (readlines rest) as [| l ls] eqn:Hrest.
    + split.
      * cbn in IHtext. now subst rest.
      * cbn [file_lines unterminated terminated]. rewrite Hc. reflexivity.
    + split.
      * change (file_text (String c l :: ls)) with (String c (file_text (l :: ls))).
        now rewrite IHtext.
      * destruct ls as [| l' ls'].
        -- cbn [file_lines] in IHlines |- *. cbn [terminated unterminated]. rewrite Hc.
           cbn [negb andb].
           destruct l as [| c' l'']; [discriminate IHlines | exact IHlines].
        -- change (file_lines (String c l :: l' :: ls'))
             with (terminated (String c l) && file_lines (l' :: ls')).
           change (file_lines (l :: l' :: ls'))
             with (terminated l && file_lines (l' :: ls')) in IHlines.
           cbn [terminated]. now rewrite Hc.
Qed.

(** *** List comprehensions *)

Lemma comprehension_first_failure {A B} (f : A -> Res B) good bad rest e :
  Forall (fun x => is_ok (f x) = true) good ->
  f bad = Raise e ->
  comprehension f (good ++ bad :: rest)%list = Raise e.
Proof.
  intros Hgood Hbad. induction Hgood as [| x good Hx _ IH].
  - cbn [app comprehension]. now rewrite Hbad.
  - cbn [app comprehension]. destruct (f x); [| discriminate Hx]. now rewrite IH.
Qed.

(** *** The parser *)

Lemma find_option_cases tok :
  (find_option parser tok = Some Help /\ (tok = "-h" \/ tok = "--help")) \/
  (find_option parser tok = Some Store /\
   (tok = "--question" \/ tok = "--implementation" \/ tok = "--deployment-name")) \/
  (find_option parser tok = Some StoreTrue /\
   (tok = "--deploy" \/ tok = "--evaluate" \/ tok = "--dataset-path"
    \/ tok = "--build-index")) \/
  (find_option parser tok = None /\ tok <> "--dataset-path").
Proof.
  unfold parser. cbn [find_option].
  destruct (String.eqb_spec "-h" tok) as [<- | _]; [left; split; [reflexivity | now left] |].
  destruct (String.eqb_spec "--help" tok) as [<- | _];
    [left; split; [reflexivity | now right] |].
  destruct (String.eqb_spec "--question" tok) as [<- | _];
    [right; left; split; [reflexivity | now left] |].
  destruct (String.eqb_spec "--implementation" tok) as [<- | _];
    [right; left; split; [reflexivity | right; now left] |].
  destruct (String.eqb_spec "--deploy" tok) as [<- | _];
    [right; right; left; split; [reflexivity | now left] |].
  destruct (String.eqb_spec "--evaluate" tok) as [<- | _];
    [right; right; left; split; [reflexivity | right; now left] |].
  destruct (String.eqb_spec "--dataset-path" tok) as [<- | Hne];
    [right; right; left; split; [reflexivity | right; right; now left] |].
  destruct (String.eqb_spec "--deployment-name" tok) as [<- | _];
    [right; left; split; [reflexivity | right; now right] |].
  destruct (String.eqb_spec "--build-index" tok) as [<- | _];
    [right; right; left; split; [reflexivity | right; right; now right] |].
  right; right; right. split; [reflexivity | congruence].
Qed.

Lemma not_dashed_not_option value :
  dashed value = false -> String.eqb "--dataset-path" value = false.
Proof.
  intros H. apply String.eqb_neq. intros <-. discriminate H.
Qed.

Lemma consume_dataset_path n argv stray a args :
  length argv <= n ->
  consume argv stray a = Ok args ->
  dataset_path args =
  if mentions_dataset_path argv then PBool true else dataset_path a.
Proof.
  revert argv stray a. induction n as [| n IH]; intros argv stray a Hlen.
  - destruct argv; [| cbn in Hlen; lia].
    cbn [consume]. destruct stray; [discriminate |]. now intros [= <-].
  - destruct argv as [| tok rest].
    + cbn [consume]. destruct stray; [discriminate |]. now intros [= <-].
    + cbn [length] in Hlen. cbn [consume].
      unfold mentions_dataset_path. cbn [existsb].
      fold (mentions_dataset_path rest).
      destruct (find_option_cases tok)
        as [[-> _] | [[-> Htok] | [[-> Htok] | [-> Htok]]]].
      * discriminate.
      * destruct rest as [| value rest']; [discriminate |].
        destruct (dashed value) eqn:Hdash; [discriminate |].
        intros Hrun. cbn [length] in Hlen.
        rewrite (IH rest' stray _ ltac:(lia) Hrun).
        unfold mentions_dataset_path at 2. cbn [existsb].
        fold (mentions_dataset_path rest').
        rewrite (not_dashed_not_option _ Hdash). cbn [orb].
        destruct Htok as [-> | [-> | ->]]; reflexivity.
      * intros Hrun. rewrite (IH rest stray _ ltac:(lia) Hrun).
        destruct Htok as [-> | [-> | [-> | ->]]];
          cbn [String.eqb Ascii.eqb Bool.eqb orb andb];
          destruct (mentions_dataset_path rest); reflexivity.
      * intros Hrun. rewrite (IH rest true _ ltac:(lia) Hrun).
        apply String.eqb_neq in Htok. rewrite String.eqb_sym in Htok.
        rewrite Htok. reflexivity.
Qed.

(** X13. Whatever the command line, the parsed [dataset_path] is [True]
    when [--dataset-path] occurs on it and the bundled default path when it
    does not: no command line makes it another path. *)
Theorem parse_args_dataset_path argv args :
  parse_args argv = Some (Ok args) ->
  dataset_path args =
  if mentions_dataset_path argv then PBool true
  else PStr "src/tests/evaluation_dataset.jsonl".
Proof.
  unfold parse_args. destruct (in_fragment argv); [| discriminate].
  intros [= Hrun]. now rewrite (consume_dataset_path _ _ _ _ _ (le_n _) Hrun).
Qed.

Lemma not_dashed_not_build_index value :
  dashed value = false -> String.eqb "--build-index" value = false.
Proof.
  intros H. apply String.eqb_neq. intros <-. discriminate H.
Qed.

Lemma consume_build_index n argv stray a args :
  length argv <= n ->
  consume argv stray a = Ok args ->
  build_index args = mentions_build_index argv || build_index a.
Proof.
  revert argv stray a. induction n as [| n IH]; intros argv stray a Hlen.
  - destruct argv; [| cbn in Hlen; lia].
    cbn [consume]. destruct stray; [discriminate |]. now intros [= <-].
  - destruct argv as [| tok rest].
    + cbn [consume]. destruct stray; [discriminate |]. now intros [= <-].
    + cbn [length] in Hlen. cbn [consume].
      unfold mentions_build_index. cbn [existsb].
      fold (mentions_build_index rest).
      destruct (find_option parser tok) as [[| |] |] eqn:Hopt.
      * destruct rest as [| value rest']; [discriminate |].
        destruct (dashed value) eqn:Hdash; [discriminate |].
        intros Hrun. cbn [length] in Hlen.
        rewrite (IH rest' stray _ ltac:(lia) Hrun).
        unfold mentions_build_index at 2. cbn [existsb].
        fold (mentions_build_index rest').
        rewrite (not_dashed_not_build_index _ Hdash). cbn [orb].
        destruct (String.eqb_spec "--build-index" tok) as [<- | _];
          [discriminate Hopt |].
        cbn [orb]. f_equal. unfold store.
        repeat match goal with |- context [if ?b then _ else _] => destruct b end;
          reflexivity.
      * intros Hrun. rewrite (IH rest stray _ ltac:(lia) Hrun).
        destruct (String.eqb_spec "--build-index" tok) as [<- | Hne].
        -- cbn [store_true String.eqb Ascii.eqb Bool.eqb andb build_index orb].
           now rewrite orb_true_r.
        -- cbn [orb]. f_equal. unfold store_true.
           destruct (String.eqb tok "--deploy"); [reflexivity |].
           destruct (String.eqb tok "--evaluate"); [reflexivity |].
           destruct (String.eqb tok "--dataset-path"); [reflexivity |].
           destruct (String.eqb_spec tok "--build-index") as [-> | _];
             [congruence | reflexivity].
      * discriminate.
      * intros Hrun. rewrite (IH rest true _ ltac:(lia) Hrun).
        destruct (String.eqb_spec "--build-index" tok) as [<- | _];
          [discriminate Hopt | reflexivity].
Qed.

Lemma consume_exit n argv stray a e :
  length argv <= n ->
  consume argv stray a = Raise e -> e = SystemExit 0 \/ e = SystemExit 2.
Proof.
  revert argv stray a. induction n as [| n IH]; intros argv stray a Hlen.
  - destruct argv; [| cbn in Hlen; lia].
    cbn [consume]. destruct stray; [intros [= <-]; now right | discriminate].
  - destruct argv as [| tok rest].
    + cbn [consume]. destruct stray; [intros [= <-]; now right | discriminate].
    + cbn [length] in Hlen. cbn [consume].
      destruct (find_option parser tok) as [[| |] |].
      * destruct rest as [| value rest']; [intros [= <-]; now right |].
        destruct (dashed value); [intros [= <-]; now right |].
        cbn [length] in Hlen. apply IH. lia.
      * apply IH. lia.
      * intros [= <-]. now left.
      * apply IH. lia.
Qed.

Section WithServices.
Variable svc : Services.

(** *** [load_jsonl] *)

(** X9. One line that [json.loads] rejects loses the whole dataset:
    [load_jsonl] raises the exception of the first such line and returns
    no record, also for the lines before it that did parse. *)
Theorem load_jsonl_first_bad_line path good bad rest e s :
  read_text svc path = Some (file_text (good ++ bad :: rest)%list) ->
  file_lines (good ++ bad :: rest)%list = true ->
  Forall (fun l => is_ok (json_loads svc l) = true) good ->
  json_loads svc bad = Raise e ->
  load_jsonl svc path s = {| result := Raise e; final := s; events := [EvOpen path] |}.
Proof.
  intros Hread Hlines Hgood Hbad.
  rewrite (RunProps.load_jsonl_run svc path _ s Hread).
  rewrite (RunProps.readlines_file_text _ Hlines).
  now rewrite (comprehension_first_failure _ _ _ _ _ Hgood Hbad).
Qed.

(** X10. When [load_jsonl] returns, the file exists, there are as many
    records as lines, the i-th record is what [json.loads] makes of the
    i-th line, and the process state is untouched. *)
Theorem load_jsonl_returns_lines path records s :
  result (load_jsonl svc path s) = Ok records ->
  exists text,
    read_text svc path = Some text /\
    file_text (readlines text) = text /\
    length records = length (readlines text) /\
    Forall2 (fun l v => json_loads svc l = Ok v) (readlines text) records /\
    final (load_jsonl svc path s) = s.
Proof.
  destruct (read_text svc path) as [text |] eqn:Hread.
  - rewrite (RunProps.load_jsonl_run svc path text s Hread). cbn [result final].
    intros Hok. exists text.
    pose proof (RunProps.comprehension_ok _ _ _ Hok) as Hall.
    split; [reflexivity | split; [apply readlines_round_trip | split; [| split]]].
    + symmetry. apply (Forall2_length _ _ _ Hall).
    + exact Hall.
    + reflexivity.
  - unfold load_jsonl.
    rewrite (bind_extern_raise _ _ _ _ (FileNotFoundError path)) by now rewrite Hread.
    discriminate.
Qed.

(** *** [copilot_qna] *)

(** X11. [copilot_qna] returns a record only when the chat function
    returned a response with [choices][0][message][content] and
    [choices][0][context], and the record is then made of the question and
    these two values. *)
Theorem copilot_qna_returns_only_protocol question fn s record :
  result (copilot_qna svc question fn s) = Ok record ->
  exists response choices choice message answer context,
    result (fn [user_message question] s) = Ok response /\
    subscript response (PStr "choices") = Ok choices /\
    subscript choices (PInt 0) = Ok choice /\
    subscript choice (PStr "message") = Ok message /\
    subscript message (PStr "content") = Ok answer /\
    subscript choice (PStr "context") = Ok context /\
    record = PDict [("question", question); ("answer", answer); ("context", context)].
Proof.
  unfold copilot_qna.
  rewrite RunProps.set_event_loop_policy_run, bind_emit.
  destruct (result (fn [user_message question] s)) as [response | e] eqn:Hfn.
  - rewrite (bind_run_ok _ _ _ _ Hfn).
    exec; finish_run; intros H; try discriminate H.
    injection H as <-.
    eexists _, _, _, _, _, _.
    repeat (split; [first [reflexivity | eassumption] |]). reflexivity.
  - rewrite (bind_run_raise _ _ _ _ Hfn). discriminate.
Qed.

(** X12. With the langchain [chat_completion] as the chat function and a
    chain whose [result] is text, [copilot_qna] never returns a record:
    whenever the chat function returns its answer, the subscript
    [result['choices']] on that string raises [TypeError]. *)
Theorem copilot_qna_langchain_text_answer question s :
  (forall qa q s' response,
     chain_call svc qa q s' = Ok response ->
     exists text, subscript response (PStr "result") = Ok (PStr text)) ->
  let fn : ChatFn := fun messages => Chat.chat_completion svc messages false PNone [] in
  is_ok (result (copilot_qna svc question fn s)) = false /\
  (forall answer,
     result (fn [user_message question] s) = Ok answer ->
     result (copilot_qna svc question fn s) = Raise TypeError).
Proof.
  intros Hchain. cbv zeta.
  assert (Htext : forall answer,
            result (Chat.chat_completion svc [user_message question] false PNone [] s)
            = Ok answer -> exists text, answer = PStr text).
  { intros answer Hok.
    destruct (ChatExtras.chat_completion_answer_of_chain svc _ _ _ _ _ _ Hok)
      as (qa & q & s' & response & Hcall & Hres).
    destruct (Hchain _ _ _ _ Hcall) as (text & Ht). exists text. congruence. }
  split.
  - destruct (result (copilot_qna svc question _ s)) as [record |] eqn:Hrun; [| reflexivity].
    destruct (copilot_qna_returns_only_protocol _ _ _ _ Hrun)
      as (response & choices & _ & _ & _ & _ & Hfn & Hchoices & _).
    destruct (Htext _ Hfn) as (text & ->). discriminate Hchoices.
  - intros answer Hfn. destruct (Htext _ Hfn) as (text & ->).
    unfold copilot_qna.
    rewrite RunProps.set_event_loop_policy_run, bind_emit.
    rewrite (bind_run_ok _ _ _ _ Hfn). cbv beta. cbn [subscript].
    now rewrite (bind_lift_raise _ _ _ TypeError eq_refl).
Qed.

(** *** [run_evaluation] *)

(** X14. With the dataset readable and the client configured,
    [run_evaluation] opens [cwd / dataset_path], then configures the
    client, then calls [evaluate] in the state it started from, on the
    records of the file, with [copilot_qna] over the chat function as the
    asset, truth column [truth], prediction column [answer], and the
    OpenAI parameters read from the environment ([None] when unset). *)
Theorem run_evaluation_hands_over fn name p text records client s :
  read_text svc (path_join svc (cwd svc) p) = Some text ->
  comprehension (json_loads svc) (readlines text) = Ok records ->
  AIClient_from_config svc s = Ok client ->
  run_evaluation svc fn name (PStr p) s =
  prepend [EvOpen (path_join svc (cwd svc) p); EvAIClientFromConfig; EvEvaluate name records]
    (sdk_evaluate svc
       {| evaluation_name := name;
          asset := fun question => copilot_qna svc question fn;
          data := records;
          task_type := "qa";
          prediction_data := "answer";
          truth_data := "truth";
          metrics_config :=
            PDict [("openai_params",
                    PDict [("api_version", PStr "2023-05-15");
                           ("api_base",
                            match environ s !! "OPENAI_API_BASE" with
                            | Some v => PStr v | None => PNone end);
                           ("api_type", PStr "azure");
                           ("api_key",
                            match environ s !! "OPENAI_API_KEY" with
                            | Some v => PStr v | None => PNone end);
                           ("deployment_id",
                            match environ s !! "AZURE_OPENAI_EVALUATION_DEPLOYMENT" with
                            | Some v => PStr v | None => PNone end)]);
                   ("questions", PStr "question");
                   ("contexts", PStr "context")];
          tracking_uri := snd client |} s).
Proof.
  intros Hread Hrecords Hclient. unfold run_evaluation, path_div.
  rewrite (bind_lift_ok _ _ _ _ eq_refl).
  rewrite (bind_run_ok _ _ _ records)
    by (rewrite (RunProps.load_jsonl_run svc _ _ s Hread); exact Hrecords).
  rewrite (RunProps.load_jsonl_run svc _ _ s Hread). cbn [events final].
  rewrite (bind_extern_ok _ _ _ _ client Hclient).
  rewrite !bind_getenv_opt, bind_emit.
  unfold prepend. cbn [result final events app]. reflexivity.
Qed.

(** X15. When the dataset file does not exist, [run_evaluation] raises
    [FileNotFoundError] for [cwd / dataset_path]; the client is not
    configured and [evaluate] is not called. *)
Theorem run_evaluation_missing_dataset fn name p s :
  read_text svc (path_join svc (cwd svc) p) = None ->
  run_evaluation svc fn name (PStr p) s =
  {| result := Raise (FileNotFoundError (path_join svc (cwd svc) p));
     final := s;
     events := [EvOpen (path_join svc (cwd svc) p)] |}.
Proof.
  intros Hread. unfold run_evaluation, path_div.
  rewrite (bind_lift_ok _ _ _ _ eq_refl).
  assert (Hload : load_jsonl svc (path_join svc (cwd svc) p) s =
                  {| result := Raise (FileNotFoundError (path_join svc (cwd svc) p));
                     final := s;
                     events := [EvOpen (path_join svc (cwd svc) p)] |}).
  { unfold load_jsonl. apply bind_extern_raise. now rewrite Hread. }
  rewrite (bind_run_raise _ _ _ (FileNotFoundError (path_join svc (cwd svc) p)))
    by now rewrite Hload.
  now rewrite Hload.
Qed.

(** *** [build_cogsearch_index] *)


(** X17. [build_cogsearch_index] writes the two cognitive-search
    variables before it configures the client: when the client fails, its
    exception is raised and the variables stay written. *)
Theorem build_cogsearch_index_writes_before_client index_name path_to_data s endpoint key e :
  environ s !! "AZURE_AI_SEARCH_ENDPOINT" = Some endpoint ->
  environ s !! "AZURE_AI_SEARCH_KEY" = Some key ->
  AIClient_from_config svc
    {| environ := <[KEY := key]> (<[TARGET := endpoint]> (environ s));
       openai := openai s |} = Raise e ->
  build_cogsearch_index svc index_name path_to_data s =
  {| result := Raise e;
     final := {| environ := <[KEY := key]> (<[TARGET := endpoint]> (environ s));
                 openai := openai s |};
     events := [EvAIClientFromConfig] |}.
Proof.
  intros He Hk Hclient. unfold build_cogsearch_index.
  rewrite (bind_getenv_some _ _ _ _ He), bind_setenv. cbv beta.
  rewrite (bind_getenv_some _ _ _ key)
    by (cbn [environ]; rewrite lookup_insert_ne by discriminate; exact Hk).
  rewrite bind_setenv. cbv beta. cbn [environ openai].
  now rewrite (bind_extern_raise _ _ _ _ e Hclient).
Qed.

(** *** The commands *)

(** X18. [--build-index] wins over every other command: on a command line
    that names it, the script imports the backend and builds the index,
    whatever [--evaluate], [--deploy] and [--question] say. *)
Theorem build_index_flag_wins argv args s :
  parse_args argv = Some (Ok args) ->
  mentions_build_index argv = true ->
  dispatch svc args s =
  bind (import_implementation svc (implementation args))
       (fun _ => build_cogsearch_index svc "contoso_product_index" "data/3-product_info") s.
Proof.
  unfold parse_args. destruct (in_fragment argv); [| discriminate].
  intros [= Hrun] Hflag.
  pose proof (consume_build_index _ _ _ _ _ (le_n _) Hrun) as Hb.
  rewrite Hflag in Hb. cbn [orb] in Hb.
  unfold dispatch. now rewrite Hb.
Qed.

(** X19. The deploy command cannot succeed: [deploy_flow] reads the names
    [Deployment] and [LocalModel], which [run.py] never binds, so once the
    client is configured it raises [NameError]; whatever the services do,
    [--deploy] ends in an exception. *)
Theorem deploy_never_succeeds args s :
  build_index args = false -> evaluate args = false -> deploy args = true ->
  is_ok (result (dispatch svc args s)) = false /\
  (forall name s' client,
     AIClient_from_config svc s' = Ok client ->
     deploy_flow svc name s' =
     {| result := Raise (NameError "Deployment"); final := s';
        events := [EvAIClientFromConfig] |}).
Proof.
  intros Hb He Hd. split.
  - unfold dispatch. rewrite Hb, He, Hd.
    destruct (result (import_implementation svc (implementation args) s))
      as [binding | e] eqn:Himport.
    + rewrite (bind_run_ok _ _ _ _ Himport). unfold deploy_flow.
      exec; finish_run; reflexivity.
    + now rewrite (bind_run_raise _ _ _ _ Himport).
  - intros name s' client Hclient. unfold deploy_flow.
    rewrite (bind_extern_ok _ _ _ _ client Hclient). reflexivity.
Qed.

(** X20. The question command with the langchain backend sends one user
    message whose content is never empty: the [--question] of the command
    line, or the sample question when it is absent or empty. The answer is
    printed after the call, so nothing is printed when the call raises. *)
Theorem ask_command_question args s :
  implementation args = "langchain" ->
  build_index args = false -> evaluate args = false -> deploy args = false ->
  asked_question args <> EmptyString /\
  (asked_question args = "which tent is the most waterproof?"
   \/ question args = Some (asked_question args)) /\
  dispatch svc args s =
  prepend [EvImport "copilot_langchain.chat";
           EvChatCompletion [user_message (PStr (asked_question args))]]
    (bind (Chat.chat_completion svc [user_message (PStr (asked_question args))]
             false PNone [])
          (fun answer => emit (EvPrint answer)) s).
Proof.
  intros Himpl Hb He Hd. split; [| split].
  - unfold asked_question. destruct (question args) as [[| c q] |]; discriminate.
  - unfold asked_question. destruct (question args) as [[| c q] |]; auto.
  - unfold dispatch. rewrite Himpl, Hb, He, Hd.
    unfold import_implementation.
    cbn [str_truthy String.eqb Ascii.eqb Bool.eqb andb].
    rewrite bind_assoc, bind_emit. cbv beta. rewrite bind_ret. cbv beta.
    cbn [lookup_chat_completion]. rewrite bind_ret. cbv beta.
    rewrite bind_emit. unfold prepend, asked_question.
    cbn [result final events app]. reflexivity.
Qed.

(** X21. A command line the parser rejects ends the script with exit
    status 0 (help) or 2, before any backend is imported and any service
    is called, the environment untouched. *)
Theorem rejected_command_line argv e s :
  parse_args argv = Some (Raise e) ->
  (e = SystemExit 0 \/ e = SystemExit 2) /\
  run_script svc argv s =
  Some {| result := Raise e; final := s; events := policy_events svc |}.
Proof.
  intros Hparse. split.
  - unfold parse_args in Hparse. destruct (in_fragment argv); [| discriminate].
    injection Hparse as Hrun. apply (consume_exit _ _ _ _ _ (le_n _) Hrun).
  - unfold run_script, main. rewrite Hparse.
    rewrite RunProps.set_event_loop_policy_run.
    rewrite (bind_lift_raise _ _ _ e eq_refl).
    unfold prepend. cbn [result final events]. now rewrite app_nil_r.
Qed.

(** X22. The backend is imported before the command is looked at: when
    the import of the promptflow, semantickernel or aisdk backend fails,
    the script stops with that exception whatever the command is, also for
    [--build-index], which needs no backend. *)
Theorem backend_import_failure args s module e :
  (implementation args = "promptflow" /\ module = "copilot_promptflow.chat") \/
  (implementation args = "semantickernel" /\ module = "copilot_semantickernel.chat") \/
  (implementation args = "aisdk" /\ module = "copilot_aisdk.chat") ->
  import_backend svc module s = Raise e ->
  dispatch svc args s =
  {| result := Raise e; final := s; events := [EvImport module] |}.
Proof.
  intros Hname Himport. unfold dispatch, import_implementation.
  destruct Hname as [[-> ->] | [[-> ->] | [-> ->]]];
    cbn [str_truthy String.eqb Ascii.eqb Bool.eqb andb];
    rewrite bind_assoc; now rewrite (bind_extern_raise _ _ _ _ e Himport).
Qed.

End WithServices.

Lemma load_jsonl_first_bad_line_witness :
  load_jsonl Outage.torn_dataset Demo.dataset_file Demo.state =
  {| result := Raise JSONDecodeError; final := Demo.state;
     events := [EvOpen Demo.dataset_file] |}.
Proof.
  apply (load_jsonl_first_bad_line Outage.torn_dataset Demo.dataset_file
           [Demo.line1] Outage.torn_line [Demo.line2] JSONDecodeError Demo.state).
  - vm_compute. reflexivity.
  - vm_compute. reflexivity.
  - repeat constructor.
  - vm_compute. reflexivity.
Defined.

Lemma load_jsonl_returns_lines_witness :
  exists text,
    read_text Demo.services Demo.dataset_file = Some text /\
    length [Demo.row "which tent is the most waterproof?" "the Alpine Explorer Tent";
            Demo.row "what is the warranty of the TrailMaster tent?" "2 years"]
    = length (readlines text).
Proof.
  destruct (load_jsonl_returns_lines Demo.services Demo.dataset_file
              [Demo.row "which tent is the most waterproof?" "the Alpine Explorer Tent";
               Demo.row "what is the warranty of the TrailMaster tent?" "2 years"]
              Demo.state)
    as (text & Hread & _ & Hlen & _).
  - vm_compute. reflexivity.
  - exists text. split; [exact Hread | exact Hlen].
Defined.

Lemma copilot_qna_returns_only_protocol_witness :
  exists response answer,
    result (Demo.protocol_backend "The Alpine Explorer Tent."
              [user_message (PStr "which tent is the most waterproof?")] Demo.state)
    = Ok response /\
    PDict [("question", PStr "which tent is the most waterproof?");
           ("answer", PStr "The Alpine Explorer Tent.");
           ("context", PDict [("documents", PStr "tent catalog")])] =
    PDict [("question", PStr "which tent is the most waterproof?");
           ("answer", answer);
           ("context", PDict [("documents", PStr "tent catalog")])].
Proof.
  destruct (copilot_qna_returns_only_protocol Demo.services
              (PStr "which tent is the most waterproof?")
              (Demo.protocol_backend "The Alpine Explorer Tent.") Demo.state
              (PDict [("question", PStr "which tent is the most waterproof?");
                      ("answer", PStr "The Alpine Explorer Tent.");
                      ("context", PDict [("documents", PStr "tent catalog")])]))
    as (response & choices & choice & message & answer & context
        & Hfn & _ & _ & _ & _ & _ & Hrecord).
  - vm_compute. reflexivity.
  - exists response, answer. split; [exact Hfn |].
    injection Hrecord as Ha Hc. now subst.
Defined.

Lemma copilot_qna_langchain_text_answer_witness :
  result (copilot_qna Demo.services (PStr "which tent is the most waterproof?")
            (fun messages => Chat.chat_completion Demo.services messages false PNone [])
            Demo.state) =
  Raise TypeError.
Proof.
  destruct (copilot_qna_langchain_text_answer Demo.services
              (PStr "which tent is the most waterproof?") Demo.state)
    as (_ & Htype).
  - intros qa q s' response [= <-]. eexists. reflexivity.
  - apply (Htype (PStr "The Alpine Explorer Tent has a rainfly rated at 3000 mm.")).
    vm_compute. reflexivity.
Defined.

Lemma parse_args_dataset_path_witness :
  exists args,
    parse_args ["--evaluate"; "--implementation"; "langchain"; "--dataset-path"]
      = Some (Ok args) /\
    dataset_path args = PBool true.
Proof.
  eexists. split; [vm_compute; reflexivity |].
  apply (parse_args_dataset_path
           ["--evaluate"; "--implementation"; "langchain"; "--dataset-path"]).
  vm_compute. reflexivity.
Defined.

Lemma run_evaluation_hands_over_witness :
  exists args,
    run_evaluation Demo.services (Demo.protocol_backend "The Alpine Explorer Tent.")
      "test-aisdk-copilot" (PStr "src/tests/evaluation_dataset.jsonl") Demo.state =
    prepend [EvOpen Demo.dataset_file; EvAIClientFromConfig;
             EvEvaluate "test-aisdk-copilot"
               [Demo.row "which tent is the most waterproof?" "the Alpine Explorer Tent";
                Demo.row "what is the warranty of the TrailMaster tent?" "2 years"]]
      (sdk_evaluate Demo.services args Demo.state) /\
    truth_data args = "truth".
Proof.
  eexists. split.
  - apply (run_evaluation_hands_over Demo.services
             (Demo.protocol_backend "The Alpine Explorer Tent.") "test-aisdk-copilot"
             "src/tests/evaluation_dataset.jsonl" (Demo.line1 +:+ Demo.line2)
             [Demo.row "which tent is the most waterproof?" "the Alpine Explorer Tent";
              Demo.row "what is the warranty of the TrailMaster tent?" "2 years"]
             ("contoso-project", PStr "azureml://contoso") Demo.state).
    + vm_compute. reflexivity.
    + vm_compute. reflexivity.
    + reflexivity.
  - reflexivity.
Defined.

Lemma run_evaluation_missing_dataset_witness :
  result (run_evaluation Demo.services (Demo.protocol_backend "The Alpine Explorer Tent.")
            "test-aisdk-copilot" (PStr "data/none.jsonl") Demo.state) =
  Raise (FileNotFoundError "/repo/data/none.jsonl").
Proof.
  rewrite (run_evaluation_missing_dataset Demo.services
             (Demo.protocol_backend "The Alpine Explorer Tent.") "test-aisdk-copilot"
             "data/none.jsonl" Demo.state).
  - vm_compute. reflexivity.
  - vm_compute. reflexivity.
Defined.


Lemma build_cogsearch_index_writes_before_client_witness :
  result (build_cogsearch_index Outage.no_client "contoso_product_index"
            "data/3-product_info" Demo.state) = Raise (ServiceError "no credentials") /\
  environ (final (build_cogsearch_index Outage.no_client "contoso_product_index"
                    "data/3-product_info" Demo.state)) !! KEY = Some "k-search".
Proof.
  rewrite (build_cogsearch_index_writes_before_client Outage.no_client
             "contoso_product_index" "data/3-product_info" Demo.state
             "https://contoso.search.windows.net" "k-search"
             (ServiceError "no credentials")).
  - cbn [result final environ]. split; [reflexivity | apply lookup_insert_eq].
  - vm_compute. reflexivity.
  - vm_compute. reflexivity.
  - reflexivity.
Defined.

Lemma build_index_flag_wins_witness :
  exists args,
    parse_args ["--evaluate"; "--deploy"; "--build-index"] = Some (Ok args) /\
    dispatch Demo.services args Demo.state =
    bind (import_implementation Demo.services (implementation args))
         (fun _ => build_cogsearch_index Demo.services "contoso_product_index"
                     "data/3-product_info") Demo.state.
Proof.
  eexists. split; [vm_compute; reflexivity |].
  apply (build_index_flag_wins Demo.services ["--evaluate"; "--deploy"; "--build-index"]).
  - vm_compute. reflexivity.
  - reflexivity.
Defined.

Lemma deploy_never_succeeds_witness :
  is_ok (result (dispatch Demo.services
                   {| question := None; implementation := "langchain"; deploy := true;
                      evaluate := false;
                      dataset_path := PStr "src/tests/evaluation_dataset.jsonl";
                      deployment_name := Some "contoso-copilot"; build_index := false |}
                   Demo.state)) = false.
Proof.
  apply (deploy_never_succeeds Demo.services
           {| question := None; implementation := "langchain"; deploy := true;
              evaluate := false;
              dataset_path := PStr "src/tests/evaluation_dataset.jsonl";
              deployment_name := Some "contoso-copilot"; build_index := false |}
           Demo.state); reflexivity.
Defined.

Lemma ask_command_question_witness :
  asked_question
    {| question := Some EmptyString; implementation := "langchain"; deploy := false;
       evaluate := false; dataset_path := PStr "src/tests/evaluation_dataset.jsonl";
       deployment_name := None; build_index := false |} <> EmptyString.
Proof.
  apply (ask_command_question Demo.services
           {| question := Some EmptyString; implementation := "langchain"; deploy := false;
              evaluate := false; dataset_path := PStr "src/tests/evaluation_dataset.jsonl";
              deployment_name := None; build_index := false |} Demo.state);
    reflexivity.
Defined.

Lemma rejected_command_line_witness :
  run_script Demo.services ["--question"] Demo.state =
  Some {| result := Raise (SystemExit 2); final := Demo.state;
          events := policy_events Demo.services |}.
Proof.
  apply (rejected_command_line Demo.services ["--question"] (SystemExit 2) Demo.state).
  vm_compute. reflexivity.
Defined.

Lemma backend_import_failure_witness :
  dispatch Outage.no_backend
    {| question := None; implementation := "aisdk"; deploy := false; evaluate := false;
       dataset_path := PStr "src/tests/evaluation_dataset.jsonl";
       deployment_name := None; build_index := true |} Demo.state =
  {| result := Raise (ImportError "copilot_aisdk.chat"); final := Demo.state;
     events := [EvImport "copilot_aisdk.chat"] |}.
Proof.
  apply (backend_import_failure Outage.no_backend
           {| question := None; implementation := "aisdk"; deploy := false;
              evaluate := false;
              dataset_path := PStr "src/tests/evaluation_dataset.jsonl";
              deployment_name := None; build_index := true |} Demo.state
           "copilot_aisdk.chat" (ImportError "copilot_aisdk.chat")).
  - right. right. split; reflexivity.
  - reflexivity.
Defined.

End RunExtras.
